(** * pytide: verification of the packaging script [setup.py]

    The script derives the package version from [git describe], writes it
    into three files of the working copy, and drives [cmake] to build the
    native extension.  The development below embeds the script function by
    function: Python strings are [string], files live in a finite map from
    paths to nodes, exceptions are values of [exn], and every function with
    an effect is a computation in a small state and error monad over the
    process state. *)

From Stdlib Require Import ZArith Lia Bool Ascii String List.
From stdpp Require Import base option list gmap strings.
Import ListNotations.

Local Open Scope string_scope.
Local Open Scope list_scope.
Local Open Scope Z_scope.

(** ** Characters *)

(** Characters are the code points 0 to 255 of a Python [str]; the
    classes are those of the standard library's tables on that range. *)

Definition code (c : ascii) : N := N_of_ascii c.

Definition between (lo hi : N) (c : ascii) : bool :=
  ((lo <=? code c) && (code c <=? hi))%N.

Definition nl : ascii := "010"%char.
Definition cr : ascii := "013"%char.
Definition dquote : ascii := "034"%char.
Definition squote : ascii := "039"%char.
Definition backslash : ascii := "092"%char.

(** [str.isspace], also the class [\s] of a [str] pattern. *)
Definition isspace (c : ascii) : bool :=
  between 9 13 c || between 28 32 c || (code c =? 133)%N || (code c =? 160)%N.

(** The class [\d] of a [str] pattern: decimal digits. *)
Definition isdigit (c : ascii) : bool := between 48 57 c.

(** The class [\w] of a [str] pattern: alphanumeric characters and the
    underscore. *)
Definition isword (c : ascii) : bool :=
  between 48 57 c || between 65 90 c || between 97 122 c || (code c =? 95)%N
  || (code c =? 170)%N || between 178 179 c || (code c =? 181)%N
  || between 185 186 c || between 188 190 c
  || between 192 214 c || between 216 246 c || between 248 255 c.

(** [str.isprintable] on one character. *)
Definition isprintable (c : ascii) : bool :=
  between 32 126 c || (between 161 255 c && negb (code c =? 173)%N).

(** ** Strings *)

Definition str1 (c : ascii) : string := String c "".

Fixpoint str_all (p : ascii -> bool) (s : string) : bool :=
  match s with
  | "" => true
  | String c s' => p c && str_all p s'
  end.

(** The first character of [s], if any, fails [p]. *)
Definition stops (p : ascii -> bool) (s : string) : bool :=
  match s with
  | "" => true
  | String c _ => negb (p c)
  end.

Fixpoint dropwhile (p : ascii -> bool) (s : string) : string :=
  match s with
  | "" => ""
  | String c s' => if p c then dropwhile p s' else s
  end.

Fixpoint str_take (n : nat) (s : string) : string :=
  match n, s with
  | S n', String c s' => String c (str_take n' s')
  | _, _ => ""
  end.

Definition is_empty (s : string) : bool :=
  match s with "" => true | _ => false end.

(** [str.lstrip()], [str.rstrip()] and [str.strip()] without argument. *)
Definition lstrip (s : string) : string := dropwhile isspace s.

Fixpoint rstrip_by (p : ascii -> bool) (s : string) : string :=
  match s with
  | "" => ""
  | String c s' =>
      let r := rstrip_by p s' in
      if is_empty r && p c then "" else String c r
  end.

Definition rstrip (s : string) : string := rstrip_by isspace s.

Definition strip (s : string) : string := rstrip (lstrip s).

(** [str.split()] without argument: the maximal runs of characters that
    are not white space. *)
Fixpoint split (s : string) : list string :=
  match s with
  | "" => []
  | String c s' =>
      if isspace c then split s'
      else if stops (fun d => negb (isspace d)) s' then str1 c :: split s'
      else match split s' with
           | t :: ts => String c t :: ts
           | [] => [str1 c]
           end
  end.

(** ["".join(lines)] *)
Fixpoint join (ls : list string) : string :=
  match ls with
  | [] => ""
  | l :: ls' => l +:+ join ls'
  end.

(** [str.upper] on the letters a to z, which is all the script applies
    it to. *)
Definition upper_char (c : ascii) : ascii :=
  if between 97 122 c then ascii_of_N (code c - 32) else c.

Fixpoint upper (s : string) : string :=
  match s with
  | "" => ""
  | String c s' => String (upper_char c) (upper s')
  end.

(** Decimal rendering of an integer, ["%d" % n] and ["%s" % n]. *)
Fixpoint digits (fuel : nat) (n : N) (acc : string) : string :=
  match fuel with
  | O => acc
  | S fuel' =>
      let acc' := String (ascii_of_N (48 + n mod 10)) acc in
      if (n <? 10)%N then acc' else digits fuel' (n / 10) acc'
  end.

Definition str_of_Z (z : Z) : string :=
  let n := Z.to_N (Z.abs z) in
  let d := digits (S (N.to_nat (N.log2 n))) n "" in
  if z <? 0 then String "-" d else d.

(** [repr] of a [str]: single quotes unless the text holds a single quote
    and no double quote; the quote, the backslash and the characters that
    are not printable are escaped. *)
Fixpoint contains (c : ascii) (s : string) : bool :=
  match s with
  | "" => false
  | String d s' => Ascii.eqb c d || contains c s'
  end.

Definition hexdigit (n : N) : ascii :=
  if (n <? 10)%N then ascii_of_N (48 + n) else ascii_of_N (87 + n).

Definition repr_char (q c : ascii) : string :=
  if Ascii.eqb c q || Ascii.eqb c backslash then String backslash (str1 c)
  else if Ascii.eqb c "009" then String backslash "t"
  else if Ascii.eqb c nl then String backslash "n"
  else if Ascii.eqb c cr then String backslash "r"
  else if isprintable c then str1 c
  else String backslash
         (String "x" (String (hexdigit (code c / 16))
                        (str1 (hexdigit (code c mod 16))))).

Fixpoint repr_body (q : ascii) (s : string) : string :=
  match s with
  | "" => ""
  | String c s' => repr_char q c +:+ repr_body q s'
  end.

Definition repr (s : string) : string :=
  let q := if contains squote s && negb (contains dquote s)
           then dquote else squote in
  String q (repr_body q s +:+ str1 q).

(** ** Regular expressions *)

(** The patterns of the script use literals, character classes, greedy
    repetition of a class, a greedy optional part and numbered groups.
    [rmatch] is the backtracking matcher of the [re] module in
    continuation-passing style: a greedy operator offers its longest
    choice first and falls back to the shorter ones when the rest of the
    pattern fails. *)
Inductive regex : Type :=
  | Eps : regex
  | Chr (p : ascii -> bool) : regex
  | Seq (r1 r2 : regex) : regex
  | Opt (r : regex) : regex
  | Star (p : ascii -> bool) : regex
  | Plus (p : ascii -> bool) : regex
  | Group (n : nat) (r : regex) : regex.

Infix ">>" := Seq (at level 60, right associativity).

Definition is_char (c : ascii) : ascii -> bool := Ascii.eqb c.

Fixpoint lits (s : string) : regex :=
  match s with
  | "" => Eps
  | String c s' => Chr (is_char c) >> lits s'
  end.

(** The dot: any character but the line feed. *)
Definition dot (c : ascii) : bool := negb (Ascii.eqb c nl).

(** The captured groups of a match, by number; a group that took no part
    in the match has no entry ([group] returns [None] for it). *)
Abbreviation groups := (gmap nat string).

Definition consumed (s s' : string) : string :=
  str_take (String.length s - String.length s') s.

Fixpoint star (p : ascii -> bool) (s : string)
    (k : string -> option groups) : option groups :=
  match s with
  | "" => k ""
  | String c s' =>
      if p c then
        match star p s' k with
        | Some g => Some g
        | None => k s
        end
      else k s
  end.

Fixpoint rmatch (r : regex) (s : string) (g : groups)
    (k : string -> groups -> option groups) : option groups :=
  match r with
  | Eps => k s g
  | Chr p =>
      match s with
      | String c s' => if p c then k s' g else None
      | "" => None
      end
  | Seq r1 r2 => rmatch r1 s g (fun s' g' => rmatch r2 s' g' k)
  | Opt r1 =>
      match rmatch r1 s g k with
      | Some g' => Some g'
      | None => k s g
      end
  | Star p => star p s (fun s' => k s' g)
  | Plus p =>
      match s with
      | String c s' => if p c then star p s' (fun s'' => k s'' g) else None
      | "" => None
      end
  | Group n r1 =>
      rmatch r1 s g (fun s' g' => k s' (<[n := consumed s s']> g'))
  end.

(** [pattern.match(s)]: a match anchored at the start of [s]. *)
Definition match_here (r : regex) (s : string) : option groups :=
  rmatch r s ∅ (fun _ g => Some g).

(** [pattern.search(s)]: the match at the leftmost position that has one. *)
Fixpoint search (r : regex) (s : string) : option groups :=
  match match_here r s with
  | Some g => Some g
  | None =>
      match s with
      | "" => None
      | String _ s' => search r s'
      end
  end.

(** [match.group(n)] *)
Definition group (n : nat) (g : groups) : option string := g !! n.

(** *** The patterns of the script *)

Definition tag_char (c : ascii) : bool :=
  isword c || isdigit c || Ascii.eqb c ".".

Definition hash_char (c : ascii) : bool := isword c || isdigit c.

(** The pattern of [update_meta]: the text [{% set version = ], a double
    quote, any run of characters of the line, a double quote and [ %}]. *)
Definition meta_pattern : regex :=
  lits "{% set version = " >> Chr (is_char dquote) >> Star dot >>
  Chr (is_char dquote) >> lits " %}".

(** The pattern of [git describe --long]:
    "([\w\d\.]+)-(\d+)-g([\w\d]+)(?:-(dirty))?" *)
Definition describe_pattern : regex :=
  Group 1 (Plus tag_char) >> Chr (is_char "-") >> Group 2 (Plus isdigit) >>
  lits "-g" >> Group 3 (Plus hash_char) >>
  Opt (Chr (is_char "-") >> Group 4 (lits "dirty")).

(** The pattern of the persisted version: white space, the text
    [result = ] and, in double quotes, group 1 as a greedy run of the
    line. *)
Definition result_pattern : regex :=
  Plus isspace >> lits "result = " >> Chr (is_char dquote) >>
  Group 1 (Star dot) >> Chr (is_char dquote).

(** The pattern of a bare hash: "([\w\d]+)(?:-(dirty))?" *)
Definition hash_pattern : regex :=
  Group 1 (Plus hash_char) >>
  Opt (Chr (is_char "-") >> Group 2 (lits "dirty")).

(** The pattern of an assignment line: group 1 is a run of word
    characters, then white space, an equals sign, white space, and group 2
    is the greedy rest of the line. *)
Definition assign_pattern : regex :=
  Group 1 (Plus isword) >> Plus isspace >> Chr (is_char "=") >>
  Plus isspace >> Group 2 (Star dot).

(** ** Numbers and dates *)

(** [int(s)] in base ten: an optional sign, then digits, single
    underscores allowed between digits; white space around is ignored. *)
Fixpoint int_digits (s : string) (acc : Z) (after_digit : bool) : option Z :=
  match s with
  | "" => if after_digit then Some acc else None
  | String c s' =>
      if isdigit c then int_digits s' (10 * acc + (Z.of_N (code c) - 48)) true
      else if Ascii.eqb c "_" && after_digit then int_digits s' acc false
      else None
  end.

Definition int (s : string) : option Z :=
  match strip s with
  | String "-" t => Z.opp <$> int_digits t 0 false
  | String "+" t => int_digits t 0 false
  | t => int_digits t 0 false
  end.

Record datetime : Type := { year : Z; month : Z; day : Z }.

(** The calendar date of a day count from 1970-01-01 (proleptic
    Gregorian calendar). *)
Definition civil_from_days (days : Z) : datetime :=
  let z := days + 719468 in
  let era := z / 146097 in
  let doe := z - era * 146097 in
  let yoe := (doe - doe / 1460 + doe / 36524 - doe / 146096) / 365 in
  let doy := doe - (365 * yoe + yoe / 4 - yoe / 100) in
  let mp := (5 * doy + 2) / 153 in
  let d := doy - (153 * mp + 2) / 5 + 1 in
  let m := if mp <? 10 then mp + 3 else mp - 9 in
  {| year := yoe + era * 400 + (if m <=? 2 then 1 else 0);
     month := m; day := d |}.

Definition month_name (m : Z) : string :=
  match m with
  | 1 => "January" | 2 => "February" | 3 => "March" | 4 => "April"
  | 5 => "May" | 6 => "June" | 7 => "July" | 8 => "August"
  | 9 => "September" | 10 => "October" | 11 => "November"
  | _ => "December"
  end.

(** [date.strftime("%d %B %Y")] in the C locale. *)
Definition strftime_dBY (d : datetime) : string :=
  (if day d <? 10 then "0" else "") +:+ str_of_Z (day d) +:+ " " +:+
  month_name (month d) +:+ " " +:+ str_of_Z (year d).

(** ** Paths *)

Definition is_sep : ascii -> bool := is_char "/".

Definition startswith_sep (s : string) : bool := negb (stops is_sep s).

Fixpoint endswith_sep (s : string) : bool :=
  match s with
  | "" => false
  | String c "" => is_sep c
  | String _ s' => endswith_sep s'
  end.

Definition path_join2 (a b : string) : string :=
  if startswith_sep b then b
  else if is_empty a || endswith_sep a then a +:+ b
  else a +:+ "/" +:+ b.

(** [os.path.join(a, *ps)] *)
Definition path_join (a : string) (ps : list string) : string :=
  fold_left path_join2 ps a.

(** The part of a path up to and including its last separator. *)
Fixpoint dir_prefix (s : string) : string :=
  match s with
  | "" => ""
  | String c s' =>
      if is_sep c || contains "/" s' then String c (dir_prefix s') else ""
  end.

(** [os.path.dirname(p)] *)
Definition dirname (p : string) : string :=
  let head := dir_prefix p in
  if is_empty head || str_all is_sep head then head
  else rstrip_by is_sep head.

(** The paths a system call goes through on its way to [s], outermost
    first, [s] itself last. *)
Fixpoint path_prefixes (s : string) : list string :=
  match s with
  | "" => []
  | String c s' =>
      let rest := map (String c) (path_prefixes s') in
      if negb (is_sep c) && (is_empty s' || startswith_sep s')
      then str1 c :: rest else rest
  end.

(** [s.split("/")] *)
Fixpoint components (s : string) : list string :=
  match s with
  | "" => [""]
  | String c s' =>
      if is_sep c then "" :: components s'
      else match components s' with
           | t :: ts => String c t :: ts
           | [] => [str1 c]
           end
  end.

(** ["/".join(ps)] *)
Fixpoint join_sep (ps : list string) : string :=
  match ps with
  | [] => ""
  | [p] => p
  | p :: ps' => p +:+ "/" +:+ join_sep ps'
  end.

(** [pathlib] reads a path as a root and parts: the root is [//] for
    exactly two leading separators, [/] for any other number of them; the
    empty components and the components [.] are no parts. *)
Definition pure_root (s : string) : string :=
  let n := (String.length s - String.length (dropwhile is_sep s))%nat in
  if (n =? 0)%nat then "" else if (n =? 2)%nat then "//" else "/".

Definition pure_parts (s : string) : list string :=
  List.filter (fun x => negb (is_empty x) && negb (String.eqb x "."))
    (components s).

(** [str] of a path made of a root and parts. *)
Definition pure_format (root : string) (parts : list string) : string :=
  let text := root +:+ join_sep parts in
  if is_empty text then "." else text.

(** [str(pathlib.Path(s))] *)
Definition pure_path (s : string) : string :=
  pure_format (pure_root s) (pure_parts s).

(** [str(pathlib.Path(s).parent)] *)
Definition path_parent (s : string) : string :=
  pure_format (pure_root s) (removelast (pure_parts s)).

(** ** The process: files, working directory, commands *)

Inductive node : Type :=
  | File (content : string)
  | Dir.

Inductive exn : Type :=
  | RuntimeError (msg : string)
  | AssertionError (msg : string)
  | AttributeError (msg : string)
  | IndexError (msg : string)
  | ValueError (msg : string)
  | TypeError (msg : string)
  | OverflowError (msg : string)
  | OSError (msg : string)
  | FileNotFoundError (path : string)
  | IsADirectoryError (path : string)
  | NotADirectoryError (path : string)
  | FileExistsError (path : string)
  | DistutilsExecError (cmd : list string).

(** The text an exception carries ([str(e)]); the file errors carry the
    path, and a failed command its words. *)
Definition message (e : exn) : string :=
  match e with
  | RuntimeError m | AssertionError m | AttributeError m | IndexError m
  | ValueError m | TypeError m | OverflowError m | OSError m => m
  | FileNotFoundError p | IsADirectoryError p | NotADirectoryError p
  | FileExistsError p => p
  | DistutilsExecError cmd => join cmd
  end.

(** The state of the process: its working directory, the file system by
    path, and the external build commands run so far, oldest first. *)
Record proc : Type := {
  cwd : string;
  files : gmap string node;
  spawned : list (list string)
}.

Definition with_files (f : gmap string node) (st : proc) : proc :=
  {| cwd := cwd st; files := f; spawned := spawned st |}.

Definition with_cwd (d : string) (st : proc) : proc :=
  {| cwd := d; files := files st; spawned := spawned st |}.

Definition with_spawned (l : list (list string)) (st : proc) : proc :=
  {| cwd := cwd st; files := files st; spawned := l |}.

Inductive result (A : Type) : Type :=
  | Ok (a : A)
  | Raise (e : exn).
Arguments Ok {A} a.
Arguments Raise {A} e.

(** A computation runs on a process state and returns a value or raises,
    together with the state it leaves. *)
Definition M (A : Type) : Type := proc -> result A * proc.

Definition ret {A} (a : A) : M A := fun st => (Ok a, st).
Definition raise {A} (e : exn) : M A := fun st => (Raise e, st).
Definition bind {A B} (m : M A) (k : A -> M B) : M B :=
  fun st =>
    match m st with
    | (Ok a, st') => k a st'
    | (Raise e, st') => (Raise e, st')
    end.

Notation "'let*' x ':=' m 'in' k" := (bind m (fun x => k))
  (at level 10, x pattern, m at level 100, k at level 200).
Notation "m ';;' k" := (bind m (fun _ => k))
  (at level 100, k at level 200, right associativity).

Definition get : M proc := fun st => (Ok st, st).
Definition put (st : proc) : M unit := fun _ => (Ok tt, st).

(** A relative path is taken from the working directory. *)
Definition resolve (st : proc) (p : string) : string := path_join2 (cwd st) p.

(** The place of a path in the form [pathlib] writes it: [.] is the
    working directory. *)
Definition locate (st : proc) (p : string) : string :=
  if decide (p = ".") then cwd st else resolve st p.

(** [str(pathlib.Path(p).absolute())]: the parts of [p] after those of the
    working directory, unless [p] has a root. *)
Definition path_absolute (st : proc) (p : string) : string :=
  if startswith_sep p then pure_path p
  else pure_format (pure_root (cwd st)) (pure_parts (cwd st) ++ pure_parts p).

(** The error of a system call on a path that does not exist, from the
    paths it goes through: [ENOTDIR] when the first of them that is not a
    directory is a regular file, [ENOENT] when it does not exist. *)
Fixpoint absent (p : string) (ps : list string) (f : gmap string node)
    : exn :=
  match ps with
  | [] => FileNotFoundError p
  | q :: ps' =>
      match f !! q with
      | Some Dir => absent p ps' f
      | Some (File _) => NotADirectoryError p
      | None => FileNotFoundError p
      end
  end.

(** [os.path.exists(p)] *)
Definition path_exists (p : string) : M bool :=
  let* st := get in ret (bool_decide (is_Some (files st !! resolve st p))).

(** Text streams translate the line endings [\r\n] and [\r] to [\n] on
    input. *)
Fixpoint universal_newlines (s : string) : string :=
  match s with
  | "" => ""
  | String c s' =>
      if Ascii.eqb c cr then
        match s' with
        | String c' s'' =>
            if Ascii.eqb c' nl then String nl (universal_newlines s'')
            else String nl (universal_newlines s')
        | "" => str1 nl
        end
      else String c (universal_newlines s')
  end.

(** The lines of a text, each with its line feed; the last one may have
    none. *)
Fixpoint lines (s : string) : list string :=
  match s with
  | "" => []
  | String c s' =>
      if Ascii.eqb c nl then str1 nl :: lines s'
      else match lines s' with
           | l :: ls => String c l :: ls
           | [] => [str1 c]
           end
  end.

(** [open(p, "r")] followed by [stream.readlines()] (or by the iteration
    over the stream); a path that does not exist gives the error of the
    first step on the way that fails. *)
Definition read_lines (p : string) : M (list string) :=
  let* st := get in
  let q := resolve st p in
  match files st !! q with
  | Some (File c) => ret (lines (universal_newlines c))
  | Some Dir => raise (IsADirectoryError p)
  | None => raise (absent p (path_prefixes q) (files st))
  end.

(** [open(p, "w")] followed by [stream.write(text)]: the file is created
    when its directory exists, and replaced when it exists itself. *)
Definition write_text (p : string) (text : string) : M unit :=
  let* st := get in
  let q := resolve st p in
  match files st !! q with
  | Some Dir => raise (IsADirectoryError p)
  | Some (File _) => put (with_files (<[q := File text]> (files st)) st)
  | None =>
      match files st !! dirname q with
      | Some Dir => put (with_files (<[q := File text]> (files st)) st)
      | _ => raise (absent p (path_prefixes q) (files st))
      end
  end.

(** [os.chdir(p)], for a path in the form [pathlib] writes it *)
Definition chdir (p : string) : M unit :=
  let* st := get in
  let q := locate st p in
  match files st !! q with
  | Some Dir => put (with_cwd q st)
  | Some (File _) => raise (NotADirectoryError p)
  | None => raise (absent p (path_prefixes q) (files st))
  end.

(** ** Version resolution *)

Definition describe_cmd : string :=
  "git describe --tags --dirty --long --always".

Definition log_cmd (sha1 : string) : string :=
  "git log  " +:+ sha1 +:+ " -1 --format=" +:+ str1 dquote +:+ "%H %at" +:+
  str1 dquote.

(** A value that is a [str] or [None], as [match.group] returns it, under
    the formats [%s] and [%r]. *)
Definition fmt_s (v : option string) : string := default "None" v.

Definition fmt_r (v : option string) : string :=
  match v with
  | Some s => repr s
  | None => "None"
  end.

(** The line [update_meta] writes for a version. *)
Definition meta_line (version : option string) : string :=
  "{% set version = " +:+ str1 dquote +:+ fmt_s version +:+ str1 dquote +:+
  " %}" +:+ str1 nl.

Definition update_meta_line (version : option string) (line : string)
    : string :=
  match search meta_pattern line with
  | Some _ => meta_line version
  | None => line
  end.

(** [update_meta(path, version)] *)
Definition update_meta (path : string) (version : option string) : M unit :=
  let* ls := read_lines path in
  write_text path (join (map (update_meta_line version) ls)).

(** The key of a line of the documentation configuration: group 1 of the
    assignment pattern, when the line has a match. *)
Definition key_of (line : string) : option (option string) :=
  group 1 <$> search assign_pattern line.

(** The three lines the loop writes. *)
Definition version_line (version : option string) : string :=
  "version = " +:+ fmt_r version +:+ str1 nl.

Definition release_line (version : option string) : string :=
  "release = " +:+ fmt_r version +:+ str1 nl.

Definition copyright_line (yr : Z) : string :=
  "copyright = '(" +:+ str_of_Z yr +:+ ", CNES/CLS)'" +:+ str1 nl.

(** The loop of [revision] over the lines of the documentation
    configuration. *)
Definition conf_line (version : option string) (yr : Z) (line : string)
    : string :=
  match key_of line with
  | Some key =>
      if decide (key = Some "version") then version_line version
      else if decide (key = Some "release") then release_line version
      else if decide (key = Some "copyright") then copyright_line yr
      else line
  | None => line
  end.

Definition rewrite_conf (version : option string) (yr : Z)
    (ls : list string) : list string :=
  map (conf_line version yr) ls.

(** The text of the generated module [src/pytide/version.py], line by
    line; every line ends with a line feed. *)
Definition module_lines (version date : string) : list string :=
  let q := str1 dquote in
  let qqq := q +:+ q +:+ q in
  [ qqq;
    "Get software version information";
    "================================";
    qqq;
    "";
    "";
    "def release(full: bool = False) -> str:";
    "    " +:+ qqq +:+ "Returns the software version number" +:+ qqq;
    "    result = " +:+ q +:+ version +:+ q;
    "    if full:";
    "        result += " +:+ q +:+ " (" +:+ date +:+ ")" +:+ q;
    "    return result" ].

Definition version_module (version date : string) : string :=
  join (map (fun l => l +:+ str1 nl) (module_lines version date)).

(** The loop over the lines of the generated module, when the version
    cannot be asked from git: the first line that matches decides. *)
Fixpoint recover (ls : list string) : option (option string) :=
  match ls with
  | [] => None
  | line :: ls' =>
      match search result_pattern line with
      | Some m => Some (group 1 m)
      | None => recover ls'
      end
  end.

(** The choice of the version and of the hash from the output of
    [git describe]. *)
Definition version_and_hash (stdout : string)
    : result (option string * option string) :=
  match search describe_pattern stdout with
  | None =>
      match search hash_pattern stdout with
      | None => Raise (AttributeError "'NoneType' object has no attribute 'group'")
      | Some m => Ok (Some "0.1", group 1 m)
      end
  | Some m => Ok (group 1 m, group 3 m)
  end.

(** [utcfromtimestamp] where [time_t] has 64 bits and the year of a
    [struct tm] 32: a stamp that is no [time_t] and a year that [gmtime]
    cannot hold are refused, and so are the years outside 1 to 9999. *)
Definition utcfromtimestamp (t : Z) : result datetime :=
  if negb ((- 2 ^ 63 <=? t) && (t <? 2 ^ 63)) then
    Raise (OverflowError "timestamp out of range for platform time_t")
  else
    let d := civil_from_days (t / 86400) in
    if negb ((- 2 ^ 31 <=? year d - 1900) && (year d - 1900 <? 2 ^ 31)) then
      Raise (OSError "[Errno 75] Value too large for defined data type")
    else if (1 <=? year d) && (year d <=? 9999) then Ok d
    else Raise (ValueError ("year " +:+ str_of_Z (year d) +:+ " is out of range")).

(** The rewrite of the documentation configuration in [revision]: the
    file is read, its lines go through the loop, and it is written back. *)
Definition update_conf (conf : string) (version : option string) (yr : Z)
    : M unit :=
  let* ls := read_lines conf in
  write_text conf (join (rewrite_conf version yr ls)).

Definition lift {A} (r : result A) : M A :=
  match r with
  | Ok a => ret a
  | Raise e => raise e
  end.

Section Revision.

(** [execute(cmd)]: the standard output of a shell command, decoded. *)
Variable execute : string -> string.

(** The commit date of a hash, from [git log]. *)
Definition commit_date (sha1 : option string) : result datetime :=
  let stdout := split (strip (execute (log_cmd (fmt_s sha1)))) in
  match stdout !! 1%nat with
  | None => Raise (IndexError "list index out of range")
  | Some stamp =>
      match int stamp with
      | None =>
          Raise (ValueError ("invalid literal for int() with base 10: "
                             +:+ str_take 200 (repr stamp)))
      | Some t => utcfromtimestamp t
      end
  end.

(** The part of [revision] that writes the resolved version into the
    working copy and returns it. *)
Definition propagate (version sha1 : option string)
    : M (option string) :=
  let* st := get in
  let module := path_join (cwd st) ["src"; "pytide"; "version.py"] in
  let* date := lift (commit_date sha1) in
  let meta := path_join (cwd st) ["conda"; "meta.yaml"] in
  let* present := path_exists meta in
  (if present then update_meta meta version else ret tt) ;;
  let conf := path_join (cwd st) ["docs"; "source"; "conf.py"] in
  update_conf conf version (year date) ;;
  write_text module (version_module (fmt_s version) (strftime_dBY date)) ;;
  ret version.

(** [revision()] *)
Definition revision : M (option string) :=
  let* st := get in
  let module := path_join (cwd st) ["src"; "pytide"; "version.py"] in
  let stdout := strip (execute describe_cmd) in
  if is_empty stdout then
    let* ls := read_lines module in
    match recover ls with
    | Some v => ret v
    | None => raise (AssertionError "")
    end
  else
    let* vh := lift (version_and_hash stdout) in
    propagate (fst vh) (snd vh).

End Revision.

(** ** The interpreter gate *)

Definition unsupported (major minor : Z) : string :=
  "Python " +:+ str_of_Z major +:+ "." +:+ str_of_Z minor +:+
  " is not supported, you need at least Python 3.6.".

(** The check at the top of the script, on [sys.version_info[0]] and
    [sys.version_info[1]]. *)
Definition check_python (major minor : Z) : result unit :=
  if negb ((3 <=? major) && (6 <=? minor))
  then Raise (RuntimeError (unsupported major minor))
  else Ok tt.

(** ** The native build *)

(** What the script asks of the interpreter and of the host: [sys.prefix],
    [sys.executable], whether [import conda] succeeds, [platform.system()]
    and [os.cpu_count()]. *)
Record host : Type := {
  prefix : string;
  executable : string;
  conda_importable : bool;
  system : string;
  cpu_count : option Z
}.

(** The command [build_ext]: the two class attributes of [BuildExt] and
    the options of the packaging framework the script reads. *)
Record BuildExt : Type := {
  CXX_COMPILER : option string;
  EIGEN3_INCLUDE_DIR : option string;
  build_temp : string;
  debug : bool;
  verbose : bool;
  dry_run : bool;
  extensions : list string;
  get_ext_fullpath : string -> string
}.

(** The command [build] with its two options. *)
Record Build : Type := {
  cxx_compiler : option string;
  eigen_root : option string
}.

(** The directories on the way to [target] are made where they are
    missing; a regular file on the way is an error that names the path
    given. *)
Fixpoint mkdirs (given target : string) (ps : list string)
    (f : gmap string node) : result unit * gmap string node :=
  match ps with
  | [] => (Ok tt, f)
  | p :: ps' =>
      match f !! p with
      | None => mkdirs given target ps' (<[p := Dir]> f)
      | Some Dir => mkdirs given target ps' f
      | Some (File _) =>
          (Raise (if decide (p = target) then FileExistsError given
                  else NotADirectoryError given), f)
      end
  end.

(** [p.mkdir(parents=True, exist_ok=True)] for a path [p] of [pathlib] *)
Definition mkdir_parents (p : string) : M unit :=
  fun st =>
    let q := locate st p in
    let '(r, f) := mkdirs p q (path_prefixes q) (files st) in
    (r, with_files f st).

Section NativeBuild.

Variable h : host.

(** The external build tool: whether the command exits with success, and
    the files it leaves, from the state it is started in. *)
Variable tool : list string -> proc -> bool * gmap string node.

Variable self : BuildExt.

Definition eigen_msg : string :=
  "Unable to find the Eigen3 library in the conda distribution used.".

(** [BuildExt.eigen()] *)
Definition eigen : M string :=
  let eigen_include_dir := path_join (prefix h) ["include"; "eigen3"] in
  let* found := path_exists eigen_include_dir in
  if found then ret ("-DEIGEN3_INCLUDE_DIR=" +:+ eigen_include_dir)
  else
    let eigen_include_dir :=
      path_join (prefix h) ["Library"; "include"; "eigen3"] in
    let* found := path_exists eigen_include_dir in
    let eigen_include_dir :=
      if negb found then dirname eigen_include_dir
      else eigen_include_dir in
    let* found := path_exists eigen_include_dir in
    if negb found then raise (RuntimeError eigen_msg)
    else ret ("-DEIGEN3_INCLUDE_DIR=" +:+ eigen_include_dir).

(** [BuildExt.is_conda()] *)
Definition is_conda : M bool :=
  let* result := path_exists (path_join (prefix h) ["conda-meta"]) in
  if negb result then ret (conda_importable h) else ret result.

(** The list [set_cmake_user_options] starts from: the compiler
    definition, when a compiler is preferred. *)
Definition cxx_definition : list string :=
  match CXX_COMPILER self with
  | Some cxx => ["-DCMAKE_CXX_COMPILER=" +:+ cxx]
  | None => []
  end.

(** [BuildExt.set_cmake_user_options()] *)
Definition set_cmake_user_options : M (list string) :=
  let* conda := is_conda in
  let result := cxx_definition in
  match EIGEN3_INCLUDE_DIR self with
  | Some dir => ret (result ++ ["-DEIGEN3_INCLUDE_DIR=" +:+ dir])
  | None =>
      if conda then let* e := eigen in ret (result ++ [e])
      else ret result
  end.

(** [self.spawn(cmd)]: nothing runs in a dry run; a command that exits
    with a failure raises. *)
Definition spawn (cmd : list string) : M unit :=
  if dry_run self then ret tt
  else fun st =>
    let '(success, f) := tool cmd st in
    let st' := with_spawned (spawned st ++ [cmd]) (with_files f st) in
    if success then (Ok tt, st') else (Raise (DistutilsExecError cmd), st').

Definition cfg : string := if debug self then "Debug" else "Release".

(** The arguments of the two commands, after the options of the user:
    [(cmake_args, build_args)]. *)
Definition assemble (extdir : string) (user : list string)
    : result (list string * list string) :=
  let cmake_args :=
    ["-DCMAKE_LIBRARY_OUTPUT_DIRECTORY=" +:+ extdir;
     "-DPYTHON_EXECUTABLE=" +:+ executable h] ++ user in
  let build_args := ["--config"; cfg] in
  let verbosely (l : list string) :=
    if verbose self then "--verbose" :: l else l in
  if negb (bool_decide (system h = "Windows")) then
    match cpu_count h with
    | None => Raise (TypeError "%d format: a number is required, not NoneType")
    | Some n =>
        let build_args := build_args ++ ["--"; "-j" +:+ str_of_Z n] in
        let cmake_args := cmake_args ++ ["-DCMAKE_BUILD_TYPE=" +:+ cfg] in
        let cmake_args :=
          if bool_decide (system h = "Darwin")
          then cmake_args ++ ["-DCMAKE_OSX_DEPLOYMENT_TARGET=10.14"]
          else cmake_args in
        Ok (cmake_args, verbosely build_args)
    end
  else
    let cmake_args :=
      cmake_args ++
      ["-G"; "Visual Studio 15 2017"; "-DCMAKE_GENERATOR_PLATFORM=x64";
       "-DCMAKE_LIBRARY_OUTPUT_DIRECTORY_" +:+ upper cfg +:+ "=" +:+ extdir] in
    let build_args := build_args ++ ["--"; "/m"] in
    let build_args :=
      if verbose self then build_args ++ ["/verbosity:n"]
      else build_args in
    Ok (cmake_args, verbosely build_args).

Definition configure_cmd (root : string) (cmake_args : list string)
    : list string := ["cmake"; root] ++ cmake_args.

Definition build_cmd (build_args : list string) : list string :=
  ["cmake"; "--build"; "."; "--target"; "core"] ++ build_args.

(** [pathlib.Path(self.build_temp)], as [str] writes it. *)
Definition temp_dir : string := pure_path (build_temp self).

(** [pathlib.Path(self.get_ext_fullpath(ext.name)).absolute().parent], as
    [str] writes it. *)
Definition ext_dir (st : proc) (ext : string) : string :=
  path_parent (path_absolute st (get_ext_fullpath self ext)).

(** [BuildExt.build_cmake(ext)]; [os.getcwd()] gives the working directory
    in the form [pathlib] keeps. *)
Definition build_cmake (ext : string) : M unit :=
  let* st := get in
  let root := cwd st in
  mkdir_parents temp_dir ;;
  let extdir := ext_dir st ext in
  let* user := set_cmake_user_options in
  let* args := lift (assemble extdir user) in
  chdir temp_dir ;;
  spawn (configure_cmd root (fst args)) ;;
  (if negb (dry_run self) then spawn (build_cmd (snd args)) else ret tt) ;;
  chdir root.

(** [BuildExt.run()], up to the step of the framework that follows the
    loop. *)
Fixpoint build_all (exts : list string) : M unit :=
  match exts with
  | [] => ret tt
  | ext :: exts' => build_cmake ext ;; build_all exts'
  end.

Definition run : M unit := build_all (extensions self).

End NativeBuild.

(** [Build.run()]: the options given to [build] become the class
    attributes of [BuildExt]. *)
Definition Build_run (b : Build) (ext : BuildExt) : BuildExt :=
  {| CXX_COMPILER :=
       match cxx_compiler b with Some c => Some c | None => CXX_COMPILER ext end;
     EIGEN3_INCLUDE_DIR :=
       match eigen_root b with Some d => Some d | None => EIGEN3_INCLUDE_DIR ext end;
     build_temp := build_temp ext; debug := debug ext; verbose := verbose ext;
     dry_run := dry_run ext; extensions := extensions ext;
     get_ext_fullpath := get_ext_fullpath ext |}.

Section Main.

Variable execute : string -> string.

(** [setuptools.setup(version=..., ...)], the packaging framework. *)
Variable setup : option string -> M unit.

(** [main()] *)
Definition main : M unit :=
  let* version := revision execute in
  setup version.

End Main.

(** ** Notions of the statements *)

(** The output of [git describe --tags --dirty --long] for a commit
    reachable from a tag. *)
Definition long_describe (tag count hash : string) (dirty : bool) : string :=
  tag +:+ "-" +:+ count +:+ "-g" +:+ hash +:+ (if dirty then "-dirty" else "").

(** A text without line feed and without carriage return. *)
Definition no_break (s : string) : Prop :=
  contains nl s = false /\ contains cr s = false.

(** A line as [readlines] returns it: not empty, with no line feed but
    possibly at its end. *)
Fixpoint is_line (l : string) : bool :=
  match l with
  | "" => false
  | String c "" => true
  | String c l' => negb (Ascii.eqb c nl) && is_line l'
  end.

Fixpoint complete (l : string) : bool :=
  match l with
  | "" => false
  | String c "" => Ascii.eqb c nl
  | String _ l' => complete l'
  end.

(** The lists of lines [readlines] returns: only the last line may lack
    its line feed. *)
Fixpoint well_lined (ls : list string) : Prop :=
  match ls with
  | [] => True
  | [l] => is_line l = true
  | l :: ls' => is_line l = true /\ complete l = true /\ well_lined ls'
  end.

(** The groups a pattern may set, and those every match of it sets. *)
Fixpoint may_set (r : regex) : list nat :=
  match r with
  | Seq r1 r2 => may_set r1 ++ may_set r2
  | Opt r1 => may_set r1
  | Group n r1 => n :: may_set r1
  | _ => []
  end.

Fixpoint must_set (r : regex) : list nat :=
  match r with
  | Seq r1 r2 => must_set r1 ++ must_set r2
  | Group n r1 => n :: must_set r1
  | _ => []
  end.

(** The directory part a path under [a] starts with. *)
Definition base (a : string) : string :=
  if is_empty a || endswith_sep a then a else a +:+ "/".

(** Whether the key of a line is [k], and how many lines have it. *)
Definition has_key (k : string) (line : string) : bool :=
  bool_decide (key_of line = Some (Some k)).


(** [s.startswith(p)] *)
Fixpoint starts_with (p s : string) : bool :=
  match p, s with
  | "", _ => true
  | String a p', String b s' => Ascii.eqb a b && starts_with p' s'
  | String _ _, "" => false
  end.



(** No path on the way to [q] is a regular file. *)
Definition clear_way (f : gmap string node) (q : string) : bool :=
  forallb (fun a => match f !! a with Some (File _) => false | _ => true end)
    (path_prefixes q).

(** The state [st'] differs from [st] at most in the files whose path is
    outside [P]. *)
Definition keeps (P : string -> Prop) (st st' : proc) : Prop :=
  cwd st' = cwd st /\ spawned st' = spawned st
  /\ forall q, P q -> files st' !! q = files st !! q.

(** The paths other than those of the three files [revision] writes. *)
Definition beside_outputs (st : proc) (q : string) : Prop :=
  q <> resolve st (path_join (cwd st) ["conda"; "meta.yaml"])
  /\ q <> resolve st (path_join (cwd st) ["docs"; "source"; "conf.py"])
  /\ q <> resolve st (path_join (cwd st) ["src"; "pytide"; "version.py"]).

(** ** Sample hosts and working copies *)

Definition conda_host : host :=
  {| prefix := "/opt/conda"; executable := "/opt/conda/bin/python";
     conda_importable := false; system := "Linux"; cpu_count := Some 4 |}.

Definition core_ext : BuildExt :=
  {| CXX_COMPILER := None; EIGEN3_INCLUDE_DIR := None;
     build_temp := "build/temp"; debug := false; verbose := false;
     dry_run := false; extensions := ["pytide.core"];
     get_ext_fullpath := fun _ => "build/lib/pytide/core.so" |}.

(** A build tool whose commands all succeed, and one whose commands all
    fail; neither touches the files. *)
Definition tool_ok (cmd : list string) (st : proc)
    : bool * gmap string node := (true, files st).

Definition tool_fails (cmd : list string) (st : proc)
    : bool * gmap string node := (false, files st).

(** A conda installation without Eigen3 whose [Library/include] directory
    exists, and a working copy in [/w]. *)
Definition conda_tree : gmap string node :=
  list_to_map
    [("/w", Dir); ("/opt/conda", Dir); ("/opt/conda/conda-meta", Dir);
     ("/opt/conda/Library", Dir); ("/opt/conda/Library/include", Dir)].

Definition conda_start : proc :=
  {| cwd := "/w"; files := conda_tree; spawned := [] |}.

(** A shell in which git answers for a commit three commits after the tag
    [v1.0.2], and a shell without git. *)
Definition git_tagged (cmd : string) : string :=
  if String.eqb cmd describe_cmd then "v1.0.2-3-gabc1234" +:+ str1 nl
  else "abc1234abc1234abc1234abc1234abc1234abc1234 1546300800" +:+ str1 nl.

Definition no_git (cmd : string) : string := "".

(** A shell whose [git describe] prints a text without any word. *)
Definition odd_git (cmd : string) : string := "?".

Definition conf_text : string :=
  join (map (fun l => l +:+ str1 nl)
          ["project = 'pytide'"; "copyright = '(2018, CNES/CLS)'";
           "version = '0.0'"; "release = '0.0'"; "html_theme = 'alabaster'"]).


(** A working copy with its documentation, the same without
    [docs/source/conf.py], and a source distribution whose generated module
    holds no version line. *)
Definition dev_tree : gmap string node :=
  list_to_map
    [("/w", Dir); ("/w/src", Dir); ("/w/src/pytide", Dir); ("/w/docs", Dir);
     ("/w/docs/source", Dir); ("/w/docs/source/conf.py", File conf_text)].

Definition dev_start : proc := {| cwd := "/w"; files := dev_tree; spawned := [] |}.


Definition bare_start : proc :=
  {| cwd := "/w"; files := delete "/w/docs/source/conf.py" dev_tree;
     spawned := [] |}.

Definition stale_start : proc :=
  {| cwd := "/w";
     files := <["/w/src/pytide/version.py" :=
                  File ("__version__ = '1.2.3'" +:+ str1 nl)]> dev_tree;
     spawned := [] |}.

(** A conda installation that ships Eigen3, and one that has neither
    Eigen3 nor a [Library/include] directory; the build directory of the
    latter exists already. *)
Definition eigen_start : proc :=
  {| cwd := "/w";
     files := <["/opt/conda/include/eigen3" := Dir]>
                (<["/opt/conda/include" := Dir]> conda_tree);
     spawned := [] |}.

Definition lean_start : proc :=
  {| cwd := "/w";
     files := list_to_map
                [("/w", Dir); ("/w/build", Dir); ("/w/build/temp", Dir);
                 ("/opt/conda", Dir); ("/opt/conda/conda-meta", Dir)];
     spawned := [] |}.

(** A working copy that also has [conda/meta.yaml]. *)
Definition meta_text : string :=
  join (map (fun l => l +:+ str1 nl)
          ["{% set name = " +:+ str1 dquote +:+ "pytide" +:+ str1 dquote +:+ " %}";
           "{% set version = " +:+ str1 dquote +:+ "0.0" +:+ str1 dquote +:+ " %}";
           "package:"]).

Definition conda_dev_start : proc :=
  {| cwd := "/w";
     files := <["/w/conda/meta.yaml" := File meta_text]>
                (<["/w/conda" := Dir]> dev_tree);
     spawned := [] |}.



(** A shell in which [git describe] answers but [git log] prints
    nothing. *)
Definition git_without_log (cmd : string) : string :=
  if String.eqb cmd describe_cmd then "v1.0.2-3-gabc1234" +:+ str1 nl else "".

(** An interpreter outside conda, one on Windows, and a host that cannot
    tell its number of processors. *)
Definition plain_host : host :=
  {| prefix := "/usr"; executable := "/usr/bin/python3";
     conda_importable := false; system := "Linux"; cpu_count := Some 4 |}.

Definition windows_host : host :=
  {| prefix := "C:/Miniconda3"; executable := "C:/Miniconda3/python.exe";
     conda_importable := false; system := "Windows"; cpu_count := None |}.

Definition uncounted_host : host :=
  {| prefix := "/usr"; executable := "/usr/bin/python3";
     conda_importable := false; system := "Linux"; cpu_count := None |}.

(** A build tool whose configure step succeeds and whose build step
    fails (the second word of a build command is [--build]), and the
    extension in a dry run. *)
Definition tool_build_fails (cmd : list string) (st : proc)
    : bool * gmap string node :=
  (negb (bool_decide (cmd !! 1%nat = Some "--build")), files st).

Definition core_dry : BuildExt :=
  {| CXX_COMPILER := None; EIGEN3_INCLUDE_DIR := None;
     build_temp := "build/temp"; debug := false; verbose := false;
     dry_run := true; extensions := ["pytide.core"];
     get_ext_fullpath := fun _ => "build/lib/pytide/core.so" |}.

Definition two_ext : BuildExt :=
  {| CXX_COMPILER := None; EIGEN3_INCLUDE_DIR := None;
     build_temp := "build/temp"; debug := true; verbose := true;
     dry_run := false; extensions := ["pytide.core"; "pytide.extra"];
     get_ext_fullpath := fun name => "build/lib/" +:+ name +:+ ".so" |}.

(** A build tool that gives up after two commands. *)
Definition tool_tires (cmd : list string) (st : proc)
    : bool * gmap string node :=
  (bool_decide (length (spawned st) < 2)%nat, files st).

(** A directory in which [docs], [src] and [build] are regular files, and
    an extension whose options are not in the form [pathlib] keeps. *)
Definition cluttered_start : proc :=
  {| cwd := "/w";
     files := list_to_map
                [("/w", Dir); ("/w/docs", File ""); ("/w/src", File "");
                 ("/w/build", File "")];
     spawned := [] |}.

Definition loose_ext : BuildExt :=
  {| CXX_COMPILER := None; EIGEN3_INCLUDE_DIR := None;
     build_temp := "build//temp/"; debug := false; verbose := false;
     dry_run := false; extensions := ["pytide.core"];
     get_ext_fullpath := fun _ => "./out/pytide/core.so" |}.

(** * Properties *)

Local Arguments String.append !_ _ / : simpl nomatch.

(** ** The model on sample inputs *)

Example repr_plain : repr "1.2.3" = "'1.2.3'".
Proof. reflexivity. Qed.

Example str_of_Z_2019 : str_of_Z 2019 = "2019".
Proof. reflexivity. Qed.

Example split_two : split " ab  12 " = ["ab"; "12"].
Proof. reflexivity. Qed.

Example strip_ex : strip (String nl " v1-2 " +:+ str1 nl) = "v1-2".
Proof. reflexivity. Qed.

Example describe_tagged :
  let m := search describe_pattern "v1.0-rc1-3-gabc123-dirty" in
  group 1 <$> m = Some (Some "rc1") /\ group 3 <$> m = Some (Some "abc123").
Proof. vm_compute. split; reflexivity. Qed.

Example assign_comment :
  group 1 <$> search assign_pattern "# the version = 1" = Some (Some "version").
Proof. vm_compute. reflexivity. Qed.

Example date_2019 :
  civil_from_days (1546300800 / 86400) = {| year := 2019; month := 1; day := 1 |}.
Proof. reflexivity. Qed.

Example date_leap :
  strftime_dBY (civil_from_days (1582934400 / 86400)) = "29 February 2020".
Proof. reflexivity. Qed.

Example int_ok :
  int " 1_000 " = Some 1000 /\ int "-12" = Some (-12) /\ int "1__0" = None
  /\ int "" = None.
Proof. repeat split. Qed.

Example join_ex :
  path_join "/w" ["src"; "pytide"; "version.py"] = "/w/src/pytide/version.py".
Proof. reflexivity. Qed.

Example dirname_ex :
  dirname "/opt/conda/Library/include/eigen3" = "/opt/conda/Library/include"
  /\ dirname "/x" = "/" /\ dirname "x" = "".
Proof. repeat split. Qed.

Example lines_ex :
  lines (universal_newlines (String "a" (String cr (String nl "b"))))
  = [String "a" (str1 nl); "b"].
Proof. reflexivity. Qed.

Example pure_path_ex :
  map pure_path ["build/temp/"; "./out"; ""; "//a//b/./c"; "///a"; "/"; "../x"]
  = ["build/temp"; "out"; "."; "//a/b/c"; "/a"; "/"; "../x"].
Proof. vm_compute. reflexivity. Qed.

Example path_parent_ex :
  map path_parent ["/w/out/pytide/core.so"; "/w"; "/"; "core.so"; "."]
  = ["/w/out/pytide"; "/"; "/"; "."; "."].
Proof. vm_compute. reflexivity. Qed.

Example path_absolute_ex :
  map (path_absolute {| cwd := "/w"; files := ∅; spawned := [] |})
    ["./out/pytide/core.so"; "build/lib/"; "/opt//lib"; ""]
  = ["/w/out/pytide/core.so"; "/w/build/lib"; "/opt/lib"; "/w"].
Proof. vm_compute. reflexivity. Qed.

Example open_under_a_file :
  read_lines "/w/docs/source/conf.py" cluttered_start
  = (Raise (NotADirectoryError "/w/docs/source/conf.py"), cluttered_start)
  /\ read_lines "/w/doc/conf.py" cluttered_start
     = (Raise (FileNotFoundError "/w/doc/conf.py"), cluttered_start)
  /\ (revision git_tagged cluttered_start).1
     = Raise (NotADirectoryError "/w/docs/source/conf.py")
  /\ (revision no_git cluttered_start).1
     = Raise (NotADirectoryError "/w/src/pytide/version.py").
Proof. vm_compute. repeat split; reflexivity. Qed.

Example mkdir_under_a_file :
  (mkdir_parents "build/temp" cluttered_start).1
  = Raise (NotADirectoryError "build/temp")
  /\ (mkdir_parents "build" cluttered_start).1 = Raise (FileExistsError "build").
Proof. vm_compute. repeat split; reflexivity. Qed.

Example stamps_out_of_range :
  utcfromtimestamp (10 ^ 12) = Raise (ValueError "year 33658 is out of range")
  /\ utcfromtimestamp (-62135596801)
     = Raise (ValueError "year 0 is out of range")
  /\ utcfromtimestamp (10 ^ 17)
     = Raise (OSError "[Errno 75] Value too large for defined data type")
  /\ utcfromtimestamp (2 ^ 63)
     = Raise (OverflowError "timestamp out of range for platform time_t").
Proof. vm_compute. repeat split; reflexivity. Qed.

Example stamp_not_an_integer :
  commit_date (fun _ => "abc12 12x") (Some "abc12")
  = Raise (ValueError "invalid literal for int() with base 10: '12x'").
Proof. vm_compute. reflexivity. Qed.

Example build_with_loose_paths :
  let out := build_cmake conda_host tool_ok loose_ext "pytide.core" conda_start in
  out.1 = Ok tt /\ cwd out.2 = "/w"
  /\ files out.2 !! "/w/build/temp" = Some Dir
  /\ spawned out.2
     = [configure_cmd "/w"
          ["-DCMAKE_LIBRARY_OUTPUT_DIRECTORY=/w/out/pytide";
           "-DPYTHON_EXECUTABLE=/opt/conda/bin/python";
           "-DEIGEN3_INCLUDE_DIR=/opt/conda/Library/include";
           "-DCMAKE_BUILD_TYPE=Release"];
        build_cmd ["--config"; "Release"; "--"; "-j4"]].
Proof. vm_compute. repeat split; reflexivity. Qed.

Example prefixes_ex :
  path_prefixes "/w/build/temp" = ["/w"; "/w/build"; "/w/build/temp"].
Proof. reflexivity. Qed.

(** ** The monad *)

Lemma bind_ok_inv {A B} (m : M A) (k : A -> M B) st b st' :
  bind m k st = (Ok b, st') ->
  exists a st1, m st = (Ok a, st1) /\ k a st1 = (Ok b, st').
Proof.
  unfold bind. destruct (m st) as [[a|e] st1]; intros H.
  - exists a, st1. split; [reflexivity | exact H].
  - discriminate.
Qed.

Lemma bind_ok {A B} (m : M A) (k : A -> M B) st a st1 :
  m st = (Ok a, st1) -> bind m k st = k a st1.
Proof. unfold bind. intros ->. reflexivity. Qed.

Lemma bind_raise {A B} (m : M A) (k : A -> M B) st e st1 :
  m st = (Raise e, st1) -> bind m k st = (Raise e, st1).
Proof. unfold bind. intros ->. reflexivity. Qed.

Lemma bind_get {B} (k : proc -> M B) st : bind get k st = k st st.
Proof. reflexivity. Qed.

Lemma lift_run {A} (r : result A) st : lift r st = (r, st).
Proof. destruct r; reflexivity. Qed.

(** ** Primitive steps *)

Lemma path_exists_run p st :
  path_exists p st = (Ok (bool_decide (is_Some (files st !! resolve st p))), st).
Proof. reflexivity. Qed.

Lemma mkdir_parents_frame p st r st' :
  mkdir_parents p st = (r, st') ->
  cwd st' = cwd st /\ spawned st' = spawned st.
Proof.
  unfold mkdir_parents.
  destruct (mkdirs _ _ _) as [r0 f]. intros [= _ <-]. split; reflexivity.
Qed.

Lemma absent_cases p ps f :
  absent p ps f = NotADirectoryError p \/ absent p ps f = FileNotFoundError p.
Proof.
  induction ps as [|q ps IH]; cbn [absent]; [auto|].
  destruct (f !! q) as [[c|]|]; auto.
Qed.

Lemma absent_not_under_a_file p ps f :
  (forall q c, In q ps -> f !! q <> Some (File c)) ->
  absent p ps f = FileNotFoundError p.
Proof.
  induction ps as [|q ps IH]; cbn [absent]; [reflexivity|]. intros H.
  destruct (f !! q) as [[c|]|] eqn:E.
  - destruct (H q c); [left; reflexivity | exact E].
  - apply IH. intros q' c' Hq'. apply H. right. exact Hq'.
  - reflexivity.
Qed.

Lemma chdir_ok p st u st' :
  chdir p st = (Ok u, st') ->
  cwd st' = locate st p /\ files st' = files st /\ spawned st' = spawned st.
Proof.
  unfold chdir, bind, get, put, raise. cbv zeta.
  destruct (files st !! locate st p) as [[c|]|]; intros [= _ <-]; auto.
Qed.

Lemma chdir_raise p st e st' :
  chdir p st = (Raise e, st') ->
  st' = st /\ (e = NotADirectoryError p \/ e = FileNotFoundError p).
Proof.
  unfold chdir, bind, get, put, raise. cbv zeta.
  destruct (files st !! locate st p) as [[c|]|]; intros [= <- <-]; auto.
  split; [reflexivity | apply absent_cases].
Qed.

(** ** Strings *)

Lemma not_empty s : is_empty s = false -> s <> "".
Proof. destruct s; [discriminate | congruence]. Qed.

Lemma app_empty_r (s : string) : s +:+ "" = s.
Proof. induction s as [|c s IH]; simpl; [reflexivity | rewrite IH; reflexivity]. Qed.

Lemma app_assoc_str (a b c : string) : (a +:+ b) +:+ c = a +:+ (b +:+ c).
Proof. induction a as [|x a IH]; simpl; [reflexivity | rewrite IH; reflexivity]. Qed.

Lemma length_app_str (a b : string) :
  String.length (a +:+ b) = (String.length a + String.length b)%nat.
Proof. induction a as [|x a IH]; simpl; [reflexivity | rewrite IH; reflexivity]. Qed.

Lemma str_all_impl (p q : ascii -> bool) s :
  (forall c, p c = true -> q c = true) -> str_all p s = true -> str_all q s = true.
Proof.
  intros Hpq. induction s as [|c s IH]; simpl; [reflexivity|].
  intros [Hc Hs]%andb_prop. rewrite (Hpq c Hc), (IH Hs). reflexivity.
Qed.

Lemma str_take_app (w r : string) : str_take (String.length w) (w +:+ r) = w.
Proof. induction w as [|c w IH]; simpl; [destruct r|rewrite IH]; reflexivity. Qed.

Lemma consumed_app (w r : string) : consumed (w +:+ r) r = w.
Proof.
  unfold consumed. rewrite length_app_str.
  replace (String.length w + String.length r - String.length r)%nat
    with (String.length w) by lia.
  apply str_take_app.
Qed.

Lemma dropwhile_app p (w r : string) :
  str_all p w = true -> stops p r = true -> dropwhile p (w +:+ r) = r.
Proof.
  intros Hw Hr. induction w as [|c w IH]; simpl in *.
  - destruct r as [|d r]; simpl in *; [reflexivity|].
    apply negb_true_iff in Hr. rewrite Hr. reflexivity.
  - apply andb_prop in Hw as [Hc Hw]. rewrite Hc. apply IH, Hw.
Qed.

(** ** Character classes *)

Ltac by_cases_on_char c :=
  destruct c as [[] [] [] [] [] [] [] []]; vm_compute; intros; congruence.

Lemma digit_is_word c : isdigit c = true -> isword c = true.
Proof. by_cases_on_char c. Qed.

Lemma tag_char_not_space c : tag_char c = true -> isspace c = false.
Proof. by_cases_on_char c. Qed.

Lemma tag_char_dot c : tag_char c = true -> dot c = true.
Proof. by_cases_on_char c. Qed.

Lemma hash_char_tag c : hash_char c = true -> tag_char c = true.
Proof. unfold tag_char, hash_char. intros ->. reflexivity. Qed.

(** ** Stripping *)

Lemma lstrip_stops s : stops isspace s = true -> lstrip s = s.
Proof.
  unfold lstrip. destruct s as [|c s]; cbn [dropwhile stops]; [reflexivity|].
  intros ->%negb_true_iff. reflexivity.
Qed.

Lemma rstrip_by_app p a b :
  rstrip_by p b <> "" -> rstrip_by p (a +:+ b) = a +:+ rstrip_by p b.
Proof.
  intros Hb. induction a as [|c a IH]; simpl; [reflexivity|].
  rewrite IH. destruct (a +:+ rstrip_by p b) eqn:E; [|reflexivity].
  destruct a; simpl in E; congruence.
Qed.

Lemma rstrip_by_keep p w t :
  str_all (fun c => negb (p c)) w = true ->
  rstrip_by p (w +:+ t) = w +:+ rstrip_by p t.
Proof.
  induction w as [|c w IH]; simpl; [reflexivity|].
  intros [Hc Hw]%andb_prop. rewrite (IH Hw).
  apply negb_true_iff in Hc. rewrite Hc, andb_false_r. reflexivity.
Qed.

Lemma str_all_not_space p s :
  (forall c, p c = true -> isspace c = false) ->
  str_all p s = true -> str_all (fun c => negb (isspace c)) s = true.
Proof.
  intros H. apply str_all_impl. intros c Hc. rewrite (H c Hc). reflexivity.
Qed.

Lemma stops_app p q w r :
  (forall c, q c = true -> p c = false) ->
  w <> "" -> str_all q w = true -> stops p (w +:+ r) = true.
Proof.
  intros H Hne Hw. destruct w as [|c w]; [congruence|]. simpl in *.
  apply andb_prop in Hw as [Hc _]. rewrite (H c Hc). reflexivity.
Qed.

Lemma is_empty_app_l a b : a <> "" -> is_empty (a +:+ b) = false.
Proof. destruct a; [congruence|reflexivity]. Qed.

Lemma strip_long_describe tag count hash dirty :
  tag <> "" -> str_all tag_char tag = true ->
  str_all isdigit count = true ->
  hash <> "" -> str_all hash_char hash = true ->
  strip (long_describe tag count hash dirty +:+ str1 nl)
  = long_describe tag count hash dirty.
Proof.
  intros Ht1 Ht2 Hc2 Hh1 Hh2. unfold strip, long_describe.
  rewrite !app_assoc_str.
  rewrite lstrip_stops
    by (eapply stops_app; [apply tag_char_not_space | assumption..]).
  unfold rstrip.
  set (sfx := if dirty then "-dirty" else "").
  assert (Hd : rstrip_by isspace (sfx +:+ str1 nl) = sfx)
    by (destruct dirty; reflexivity).
  assert (Hh : rstrip_by isspace (hash +:+ sfx +:+ str1 nl) = hash +:+ sfx).
  { rewrite rstrip_by_keep, Hd; [reflexivity|].
    eapply str_all_not_space; [|exact Hh2].
    intros c Hc. apply tag_char_not_space, hash_char_tag, Hc. }
  assert (Hne : hash +:+ sfx <> "") by (destruct hash; [congruence | discriminate]).
  replace (tag +:+ "-" +:+ count +:+ "-g" +:+ hash +:+ sfx +:+ str1 nl)
    with ((tag +:+ "-" +:+ count +:+ "-g") +:+ (hash +:+ sfx +:+ str1 nl))
    by (rewrite !app_assoc_str; reflexivity).
  rewrite rstrip_by_app by (rewrite Hh; exact Hne).
  rewrite Hh, !app_assoc_str. reflexivity.
Qed.

(** ** Lines *)

Lemma contains_app c a b : contains c (a +:+ b) = contains c a || contains c b.
Proof.
  induction a as [|x a IH]; simpl; [reflexivity|].
  rewrite IH. apply orb_assoc.
Qed.

Lemma contains_str_all c p s :
  p c = false -> str_all p s = true -> contains c s = false.
Proof.
  intros Hc. induction s as [|x s IH]; simpl; [reflexivity|].
  intros [Hx Hs]%andb_prop. rewrite (IH Hs), orb_false_r.
  destruct (Ascii.eqb_spec c x) as [->|]; [congruence | reflexivity].
Qed.

Lemma universal_newlines_no_cr s : contains cr (universal_newlines s) = false.
Proof.
  assert (H : forall n s, (String.length s <= n)%nat ->
                contains cr (universal_newlines s) = false).
  { clear s. induction n as [|n IH]; intros [|c s] Hl; simpl in Hl;
      try reflexivity; try lia.
    cbn [universal_newlines].
    destruct (Ascii.eqb_spec c cr) as [->|Hc].
    - destruct s as [|c' s]; [reflexivity|].
      destruct (Ascii.eqb c' nl); cbn [contains]; rewrite IH;
        simpl in *; try reflexivity; lia.
    - cbn [contains]. rewrite IH by lia.
      destruct (Ascii.eqb_spec cr c); [congruence | reflexivity]. }
  apply (H (String.length s)). lia.
Qed.

Lemma universal_newlines_id s :
  contains cr s = false -> universal_newlines s = s.
Proof.
  induction s as [|c s IH]; [reflexivity|].
  cbn [contains universal_newlines]. intros [Hc Hs]%orb_false_elim.
  rewrite Ascii.eqb_sym, Hc, (IH Hs). reflexivity.
Qed.

Lemma universal_newlines_app a b :
  contains cr a = false ->
  universal_newlines (a +:+ b) = a +:+ universal_newlines b.
Proof.
  induction a as [|c a IH]; [reflexivity|].
  cbn [contains]. intros [Hc Ha]%orb_false_elim.
  simpl String.append. cbn [universal_newlines].
  rewrite Ascii.eqb_sym, Hc, (IH Ha). reflexivity.
Qed.

Lemma lines_nil s : lines s = [] -> s = "".
Proof.
  destruct s as [|c s]; [reflexivity|]. cbn [lines].
  destruct (Ascii.eqb c nl); [discriminate|].
  destruct (lines s); discriminate.
Qed.

Lemma join_lines s : join (lines s) = s.
Proof.
  induction s as [|c s IH]; [reflexivity|]. cbn [lines].
  destruct (Ascii.eqb_spec c nl) as [->|Hc].
  - cbn [join]. rewrite IH. reflexivity.
  - destruct (lines s) as [|l ls] eqn:E.
    + apply lines_nil in E as ->. reflexivity.
    + cbn [join] in *. rewrite <- IH. reflexivity.
Qed.

Lemma lines_line l s :
  contains nl l = false -> lines (l +:+ String nl s) = (l +:+ str1 nl) :: lines s.
Proof.
  induction l as [|c l IH].
  - intros _. reflexivity.
  - cbn [contains]. intros [Hc Hl]%orb_false_elim.
    simpl String.append. cbn [lines].
    rewrite Ascii.eqb_sym, Hc, (IH Hl). reflexivity.
Qed.

Lemma lines_last l :
  contains nl l = false -> l <> "" -> lines l = [l].
Proof.
  induction l as [|c l IH]; [congruence|].
  cbn [contains]. intros [Hc Hl]%orb_false_elim _.
  cbn [lines]. rewrite Ascii.eqb_sym, Hc.
  destruct l as [|d l]; [reflexivity|].
  rewrite IH by (assumption || discriminate). reflexivity.
Qed.

Lemma is_line_shape l :
  is_line l = true ->
  exists b, contains nl b = false /\
    (l = b +:+ str1 nl /\ complete l = true \/ l = b /\ b <> "" /\ complete l = false).
Proof.
  induction l as [|c l IH]; [discriminate|].
  destruct l as [|d l].
  - intros _. destruct (Ascii.eqb_spec c nl) as [->|Hc].
    + exists "". split; [reflexivity|]. left. split; reflexivity.
    + exists (str1 c). apply Ascii.eqb_neq in Hc. split.
      * cbn [contains str1]. rewrite Ascii.eqb_sym, Hc. reflexivity.
      * right. cbn [complete str1]. rewrite Hc.
        repeat split. discriminate.
  - cbn [is_line]. intros [Hc Hl]%andb_prop.
    apply negb_true_iff in Hc.
    assert (Hk' : complete (String c (String d l)) = complete (String d l))
      by reflexivity.
    destruct (IH Hl) as (b & Hb & Hcase). exists (String c b). split.
    + cbn [contains]. rewrite Ascii.eqb_sym, Hc, Hb. reflexivity.
    + rewrite Hk'. destruct Hcase as [[-> Hk]|(-> & Hne & Hk)].
      * left. split; [reflexivity|exact Hk].
      * right. repeat split; [discriminate|exact Hk].
Qed.

Lemma lines_join ls : well_lined ls -> lines (join ls) = ls.
Proof.
  induction ls as [|l ls IH]; [reflexivity|].
  destruct ls as [|l' ls].
  - cbn [well_lined join]. intros Hl. rewrite app_empty_r.
    destruct (is_line_shape l Hl) as (b & Hb & [[-> _]|(-> & Hne & _)]).
    + unfold str1. rewrite lines_line by exact Hb. reflexivity.
    + apply lines_last; assumption.
  - intros (Hl & Hc & Hw). change (join (l :: l' :: ls)) with (l +:+ join (l' :: ls)).
    destruct (is_line_shape l Hl) as (b & Hb & [[-> _]|(-> & _ & Hk)]);
      [|congruence].
    rewrite app_assoc_str. change (str1 nl +:+ join (l' :: ls))
      with (String nl (join (l' :: ls))).
    rewrite lines_line by exact Hb. rewrite (IH Hw). reflexivity.
Qed.

Lemma is_line_cons c l : l <> "" ->
  is_line (String c l) = negb (Ascii.eqb c nl) && is_line l.
Proof. destruct l; [congruence|reflexivity]. Qed.

Lemma lines_well_lined s : well_lined (lines s).
Proof.
  induction s as [|c s IH]; [exact I|]. cbn [lines].
  destruct (Ascii.eqb_spec c nl) as [->|Hc].
  - destruct (lines s) as [|l ls]; [reflexivity|].
    split; [reflexivity|]. split; [reflexivity|exact IH].
  - destruct (lines s) as [|l ls]; [reflexivity|].
    assert (Hcn : negb (Ascii.eqb c nl) = true)
      by (destruct (Ascii.eqb_spec c nl); [congruence|reflexivity]).
    destruct ls as [|l' ls].
    + cbn [well_lined] in *. destruct l; [discriminate|].
      rewrite is_line_cons by discriminate. rewrite Hcn, IH. reflexivity.
    + destruct IH as (Hl & Hk & Hw). destruct l; [discriminate|].
      split; [|split; [exact Hk|exact Hw]].
      rewrite is_line_cons by discriminate. rewrite Hcn, Hl. reflexivity.
Qed.

(** ** Rendered text holds no line break *)

Lemma no_break_app a b : no_break a -> no_break b -> no_break (a +:+ b).
Proof.
  unfold no_break. intros [H1 H2] [H3 H4].
  rewrite !contains_app, H1, H2, H3, H4. split; reflexivity.
Qed.

Lemma repr_char_no_break (q c : ascii) :
  q = squote \/ q = dquote -> no_break (repr_char q c).
Proof.
  intros [-> | ->]; destruct c as [[] [] [] [] [] [] [] []];
    split; vm_compute; reflexivity.
Qed.

Lemma repr_body_no_break q s :
  q = squote \/ q = dquote -> no_break (repr_body q s).
Proof.
  intros Hq. induction s as [|c s IH]; [split; reflexivity|].
  cbn [repr_body]. apply no_break_app; [apply repr_char_no_break, Hq|exact IH].
Qed.

Lemma repr_no_break s : no_break (repr s).
Proof.
  unfold repr.
  set (q := if contains squote s && negb (contains dquote s)
            then dquote else squote).
  assert (Hq : q = squote \/ q = dquote)
    by (unfold q; destruct (_ && _); auto).
  change (String q (repr_body q s +:+ str1 q))
    with (str1 q +:+ repr_body q s +:+ str1 q).
  assert (H1 : no_break (str1 q)) by (destruct Hq as [-> | ->]; split; reflexivity).
  auto using no_break_app, repr_body_no_break.
Qed.

Lemma fmt_r_no_break v : no_break (fmt_r v).
Proof. destruct v; [apply repr_no_break | split; reflexivity]. Qed.

Lemma digit_char_no_break n : (n < 10)%N -> no_break (str1 (ascii_of_N (48 + n))).
Proof.
  intros Hn.
  pose (ok := fun k : nat =>
          let d := str1 (ascii_of_N (48 + N.of_nat k)) in
          negb (contains nl d) && negb (contains cr d)).
  assert (Hall : forallb ok (seq 0 10) = true) by (vm_compute; reflexivity).
  rewrite forallb_forall in Hall.
  assert (Hk : ok (N.to_nat n) = true) by (apply Hall, in_seq; lia).
  unfold ok in Hk. rewrite N2Nat.id in Hk.
  apply andb_prop in Hk as [H1 H2].
  split; apply negb_true_iff; assumption.
Qed.

Lemma digits_no_break fuel n acc : no_break acc -> no_break (digits fuel n acc).
Proof.
  revert n acc. induction fuel as [|fuel IH]; intros n acc Hacc; [exact Hacc|].
  cbn [digits].
  assert (Hd : no_break (String (ascii_of_N (48 + n mod 10)) acc)).
  { change (String ?c acc) with (str1 c +:+ acc).
    apply no_break_app; [|exact Hacc].
    apply digit_char_no_break, N.mod_lt. discriminate. }
  destruct (n <? 10)%N; [exact Hd | apply IH, Hd].
Qed.

Lemma str_of_Z_no_break z : no_break (str_of_Z z).
Proof.
  unfold str_of_Z.
  assert (H : forall f n, no_break (digits f n ""))
    by (intros; apply digits_no_break; split; reflexivity).
  destruct (z <? 0); [|apply H].
  change (String "-" ?d) with ("-" +:+ d).
  apply no_break_app; [split; reflexivity | apply H].
Qed.

(** ** The matcher *)

Lemma star_greedy p s k m :
  k (dropwhile p s) = Some m -> star p s k = Some m.
Proof.
  induction s as [|c s IH]; simpl; [auto|].
  destruct (p c); [|auto]. intros H. rewrite (IH H). reflexivity.
Qed.

Lemma star_prefix p w s k m :
  str_all p w = true -> star p s k = Some m -> star p (w +:+ s) k = Some m.
Proof.
  intros Hw Hs. induction w as [|c w IH]; simpl in *; [exact Hs|].
  apply andb_prop in Hw as [-> Hw]. rewrite (IH Hw). reflexivity.
Qed.

Lemma rmatch_lits l s g k : rmatch (lits l) (l +:+ s) g k = k s g.
Proof.
  induction l as [|c l IH]; simpl; [reflexivity|].
  unfold is_char at 1. rewrite Ascii.eqb_refl. apply IH.
Qed.

Lemma rmatch_plus_greedy p w r g k m :
  str_all p w = true -> w <> "" -> stops p r = true ->
  k r g = Some m -> rmatch (Plus p) (w +:+ r) g k = Some m.
Proof.
  intros Hw Hne Hr Hk. destruct w as [|c w]; [congruence|].
  simpl in *. apply andb_prop in Hw as [-> Hw].
  apply star_greedy. rewrite dropwhile_app by assumption. exact Hk.
Qed.

Lemma rmatch_group n r s g k :
  rmatch (Group n r) s g k
  = rmatch r s g (fun s' g' => k s' (<[n := consumed s s']> g')).
Proof. reflexivity. Qed.

Lemma rmatch_seq r1 r2 s g k :
  rmatch (r1 >> r2) s g k = rmatch r1 s g (fun s' g' => rmatch r2 s' g' k).
Proof. reflexivity. Qed.

Lemma rmatch_opt r s g k :
  rmatch (Opt r) s g k
  = match rmatch r s g k with Some g' => Some g' | None => k s g end.
Proof. reflexivity. Qed.

Lemma rmatch_group_plus n p w r g k m :
  str_all p w = true -> w <> "" -> stops p r = true ->
  k r (<[n := w]> g) = Some m ->
  rmatch (Group n (Plus p)) (w +:+ r) g k = Some m.
Proof.
  intros Hw Hne Hr Hk. rewrite rmatch_group.
  apply rmatch_plus_greedy; try assumption.
  rewrite consumed_app. exact Hk.
Qed.

Lemma rmatch_plus_stop p s g k : stops p s = true -> rmatch (Plus p) s g k = None.
Proof.
  destruct s as [|c s]; simpl; [reflexivity|].
  intros ->%negb_true_iff. reflexivity.
Qed.

Lemma search_here r s m : match_here r s = Some m -> search r s = Some m.
Proof. intros H. destruct s; simpl; rewrite H; reflexivity. Qed.

Lemma star_inv p s k m :
  star p s k = Some m -> exists s', k s' = Some m.
Proof.
  induction s as [|c s IH]; simpl; [eauto|].
  destruct (p c); [|eauto].
  destruct (star p s k) eqn:E; [|eauto].
  intros [= <-]. apply IH. reflexivity.
Qed.

Lemma rmatch_inv r : forall s g k m,
  rmatch r s g k = Some m ->
  exists s' g', k s' g' = Some m
    /\ (forall n, ~ In n (may_set r) -> g' !! n = g !! n)
    /\ (forall n, In n (must_set r) \/ is_Some (g !! n) -> is_Some (g' !! n)).
Proof.
  induction r as [|p|r1 IH1 r2 IH2|r1 IH1|p|p|n r1 IH1]; intros s g k m; simpl.
  - intros H. exists s, g. split; [exact H|]. split; [auto|]. intros n [[]|H']; exact H'.
  - destruct s as [|c s]; [discriminate|]. destruct (p c); [|discriminate].
    intros H. exists s, g. split; [exact H|]. split; [auto|]. intros n [[]|H']; exact H'.
  - intros H. apply IH1 in H as (s1 & g1 & H & Hk1 & Hm1).
    apply IH2 in H as (s2 & g2 & H & Hk2 & Hm2).
    exists s2, g2. split; [exact H|]. split.
    + intros n Hn. rewrite Hk2, Hk1; [reflexivity| |]; intros Hin; apply Hn, in_or_app; auto.
    + intros n [Hn|Hn]; apply Hm2.
      * apply in_app_or in Hn as [Hn|Hn]; [right; apply Hm1; auto | auto].
      * right. apply Hm1. auto.
  - destruct (rmatch r1 s g k) eqn:E.
    + intros [= <-]. apply IH1 in E as (s1 & g1 & H & Hk1 & Hm1).
      exists s1, g1. split; [exact H|]. split; [exact Hk1|].
      intros n [[]|Hn]. apply Hm1. auto.
    + intros H. exists s, g. split; [exact H|]. split; [auto|].
      intros n [[]|H']; exact H'.
  - intros H. apply star_inv in H as [s' H]. exists s', g.
    split; [exact H|]. split; [auto|]. intros n [[]|H']; exact H'.
  - destruct s as [|c s]; [discriminate|]. destruct (p c); [|discriminate].
    intros H. apply star_inv in H as [s' H]. exists s', g.
    split; [exact H|]. split; [auto|]. intros n [[]|H']; exact H'.
  - intros H. apply IH1 in H as (s1 & g1 & H & Hk1 & Hm1).
    exists s1, (<[n := consumed s s1]> g1). split; [exact H|]. split.
    + intros n' Hn'. rewrite lookup_insert_ne by (intros ->; apply Hn'; left; reflexivity).
      apply Hk1. intros Hin. apply Hn'. right. exact Hin.
    + intros n' Hn'. destruct (decide (n = n')) as [->|Hne].
      * rewrite lookup_insert_eq. eauto.
      * rewrite lookup_insert_ne by exact Hne. apply Hm1.
        destruct Hn' as [[Hn'|Hn']|Hn']; [congruence | auto | auto].
Qed.

Lemma match_here_groups r s m :
  match_here r s = Some m ->
  (forall n, ~ In n (may_set r) -> m !! n = None)
  /\ (forall n, In n (must_set r) -> is_Some (m !! n)).
Proof.
  unfold match_here. intros H.
  apply rmatch_inv in H as (s' & g' & [= <-] & Hk & Hm). split.
  - intros n Hn. rewrite Hk by exact Hn. apply lookup_empty.
  - intros n Hn. apply Hm. auto.
Qed.

Lemma search_groups r s m :
  search r s = Some m ->
  (forall n, ~ In n (may_set r) -> m !! n = None)
  /\ (forall n, In n (must_set r) -> is_Some (m !! n)).
Proof.
  induction s as [|c s IH]; simpl.
  - destruct (match_here r "") eqn:E; [|discriminate].
    intros [= <-]. eapply match_here_groups, E.
  - destruct (match_here r (String c s)) eqn:E.
    + intros [= <-]. eapply match_here_groups, E.
    + exact IH.
Qed.

(** ** What a match captures *)

Lemma star_inv_split p s k m :
  star p s k = Some m ->
  exists w r, s = w +:+ r /\ str_all p w = true /\ k r = Some m.
Proof.
  induction s as [|c s IH]; cbn [star].
  - intros H. exists "", "". auto.
  - destruct (p c) eqn:Hc.
    + destruct (star p s k) eqn:E.
      * intros [= <-]. destruct (IH eq_refl) as (w & r & -> & Hw & Hk).
        exists (String c w), r. cbn [str_all]. rewrite Hc, Hw. auto.
      * intros H. exists "", (String c s). auto.
    + intros H. exists "", (String c s). auto.
Qed.

Lemma plus_inv_split p s g k m :
  rmatch (Plus p) s g k = Some m ->
  exists w r, s = w +:+ r /\ str_all p w = true /\ w <> "" /\ k r g = Some m.
Proof.
  cbn [rmatch]. destruct s as [|c s]; [discriminate|].
  destruct (p c) eqn:Hc; [|discriminate].
  intros (w & r & -> & Hw & Hk)%star_inv_split.
  exists (String c w), r. cbn [str_all]. rewrite Hc, Hw.
  repeat split; [discriminate | exact Hk].
Qed.

Lemma search_inv r s m :
  search r s = Some m -> exists s', match_here r s' = Some m.
Proof.
  induction s as [|c s IH]; cbn [search].
  - destruct (match_here r "") eqn:E; [|discriminate].
    intros [= <-]. eauto.
  - destruct (match_here r (String c s)) eqn:E; [intros [= <-]; eauto | exact IH].
Qed.

Lemma leading_group_captures p rest s m :
  ~ In 1%nat (may_set rest) ->
  search (Group 1 (Plus p) >> rest) s = Some m ->
  exists t, group 1 m = Some t /\ str_all p t = true /\ t <> "".
Proof.
  intros Hnot (s' & Hm)%search_inv. unfold match_here in Hm.
  rewrite rmatch_seq, rmatch_group in Hm.
  apply plus_inv_split in Hm as (w & r & -> & Hw & Hne & Hm).
  rewrite consumed_app in Hm.
  apply rmatch_inv in Hm as (s2 & g2 & [= <-] & Hk & _).
  exists w. unfold group. rewrite Hk by exact Hnot.
  rewrite lookup_insert_eq. auto.
Qed.

Lemma version_and_hash_shape stdout version sha1 :
  version_and_hash stdout = Ok (version, sha1) ->
  exists t, version = Some t /\ str_all tag_char t = true.
Proof.
  unfold version_and_hash.
  destruct (search describe_pattern stdout) as [m|] eqn:E.
  - intros [= <- _].
    apply leading_group_captures in E as (t & Ht & Hall & _).
    + eauto.
    + cbn. intros [H|[H|[H|[]]]]; discriminate H.
  - destruct (search hash_pattern stdout); [|discriminate].
    intros [= <- _]. exists "0.1". split; reflexivity.
Qed.

(** The groups the script reads take part in every match of their
    pattern: [match.group] never returns [None] there. *)
Lemma groups_read_are_set s m :
  (search describe_pattern s = Some m ->
     is_Some (group 1 m) /\ is_Some (group 3 m))
  /\ (search hash_pattern s = Some m -> is_Some (group 1 m))
  /\ (search result_pattern s = Some m -> is_Some (group 1 m))
  /\ (search assign_pattern s = Some m -> is_Some (group 1 m)).
Proof.
  split; [|split; [|split]]; intros Hs;
    apply search_groups in Hs as [_ Hset];
    [split|..]; apply Hset; cbn; auto.
Qed.

(** ** The interpreter gate *)

(** Claim C10.  The gate raises [RuntimeError] exactly when the major
    version is below 3 or the minor version is below 6, and lets the
    interpreter through exactly when both bounds hold; an interpreter 4.0
    is therefore refused. *)
Theorem check_python_gate (major minor : Z) :
  (check_python major minor = Raise (RuntimeError (unsupported major minor))
   <-> major < 3 \/ minor < 6)
  /\ (check_python major minor = Ok tt <-> 3 <= major /\ 6 <= minor)
  /\ check_python 4 0
     = Raise (RuntimeError
                "Python 4.0 is not supported, you need at least Python 3.6.").
Proof.
  unfold check_python.
  destruct (3 <=? major) eqn:Ha; destruct (6 <=? minor) eqn:Hb; simpl;
    (repeat split; intros; try discriminate; try reflexivity; try lia).
Qed.

(** ** Version resolution *)

Lemma rmatch_chr_lit c s g k : rmatch (Chr (is_char c)) (String c s) g k = k s g.
Proof. simpl. unfold is_char. rewrite Ascii.eqb_refl. reflexivity. Qed.

Lemma describe_match tag count hash dirty :
  tag <> "" -> str_all tag_char tag = true ->
  count <> "" -> str_all isdigit count = true ->
  hash <> "" -> str_all hash_char hash = true ->
  exists m, search describe_pattern (long_describe tag count hash dirty) = Some m
    /\ group 1 m = Some tag /\ group 3 m = Some hash.
Proof.
  intros Ht1 Ht2 Hc1 Hc2 Hh1 Hh2.
  assert (exists m, match_here describe_pattern (long_describe tag count hash dirty)
                    = Some m /\ group 1 m = Some tag /\ group 3 m = Some hash)
    as (m & Hm & H1 & H3); [|exists m; auto using search_here].
  unfold match_here, describe_pattern, long_describe.
  assert (Hstop : stops hash_char (if dirty then "-dirty" else "") = true)
    by (destruct dirty; reflexivity).
  assert (exists m, rmatch (Opt (Chr (is_char "-") >> Group 4 (lits "dirty")))
            (if dirty then "-dirty" else "")
            (<[3%nat := hash]> (<[2%nat := count]> (<[1%nat := tag]> ∅)))
            (fun _ g => Some g) = Some m
          /\ group 1 m = Some tag /\ group 3 m = Some hash)
    as (m & Hm & H1 & H3)
    by (destruct dirty; simpl; eexists; (split; [reflexivity|]);
        split; reflexivity).
  exists m. split; [|auto].
  rewrite rmatch_seq. apply rmatch_group_plus; [assumption..|reflexivity|].
  simpl String.append. rewrite rmatch_seq, rmatch_chr_lit.
  rewrite rmatch_seq. apply rmatch_group_plus; [assumption..|reflexivity|].
  rewrite rmatch_seq.
  etrans; [apply (rmatch_lits "-g")|]. cbv beta.
  rewrite rmatch_seq. apply rmatch_group_plus; [assumption..|].
  exact Hm.
Qed.

Lemma revision_in_working_copy execute st :
  is_empty (strip (execute describe_cmd)) = false ->
  revision execute st
  = (let* vh := lift (version_and_hash (strip (execute describe_cmd))) in
     propagate execute vh.1 vh.2) st.
Proof. intros H. unfold revision. rewrite bind_get, H. reflexivity. Qed.

Lemma search_skip_all r p pre s :
  (forall c t, p c = true -> match_here r (String c t) = None) ->
  str_all p pre = true -> search r (pre +:+ s) = search r s.
Proof.
  intros H. induction pre as [|c pre IH]; simpl; [reflexivity|].
  intros [Hc Hp]%andb_prop. rewrite (H c _ Hc). apply IH, Hp.
Qed.

Lemma hash_match pre w rest :
  str_all (fun c => negb (hash_char c)) pre = true ->
  w <> "" -> str_all hash_char w = true -> stops hash_char rest = true ->
  exists m, search hash_pattern (pre +:+ w +:+ rest) = Some m
    /\ group 1 m = Some w.
Proof.
  intros Hpre Hne Hw Hrest.
  rewrite (search_skip_all _ (fun c => negb (hash_char c)) pre _);
    [| |exact Hpre].
  2:{ intros c t Hc. unfold match_here, hash_pattern.
      rewrite rmatch_seq, rmatch_group. apply rmatch_plus_stop.
      exact Hc. }
  set (opt := Opt (Chr (is_char "-") >> Group 2 (lits "dirty"))).
  destruct (rmatch opt rest (<[1%nat := w]> ∅) (fun _ g => Some g)) as [m|] eqn:E.
  - exists m. split.
    + apply search_here. unfold match_here, hash_pattern.
      rewrite rmatch_seq. apply rmatch_group_plus; assumption.
    + apply rmatch_inv in E as (s' & g' & [= <-] & Hk & _).
      unfold group. rewrite Hk.
      * apply lookup_insert_eq.
      * simpl. intros [H|[]]. discriminate H.
  - exfalso. unfold opt in E. rewrite rmatch_opt in E.
    destruct (rmatch _ rest _ _); discriminate.
Qed.

Section Resolution.

Variables tag count hash : string.
Variable dirty : bool.

Hypothesis tag_shape : is_empty tag = false /\ str_all tag_char tag = true.
Hypothesis count_shape : is_empty count = false /\ str_all isdigit count = true.
Hypothesis hash_shape : is_empty hash = false /\ str_all hash_char hash = true.

Lemma version_and_hash_tagged :
  version_and_hash (long_describe tag count hash dirty)
  = Ok (Some tag, Some hash).
Proof.
  destruct tag_shape as [Ht1%not_empty Ht2].
  destruct count_shape as [Hc1%not_empty Hc2].
  destruct hash_shape as [Hh1%not_empty Hh2].
  destruct (describe_match tag count hash dirty) as (m & Hm & H1 & H3);
    try assumption.
  unfold version_and_hash. rewrite Hm, H1, H3. reflexivity.
Qed.

End Resolution.

(** Claim C5, amended.  For a describe output whose tag is made of the
    characters the pattern admits in a tag (word characters and dots),
    followed by a count and a hash, with or without the [-dirty] marker,
    the version is the tag and the hash looked up is the hash: stripping
    the line feed of the output gives the text back, the two values are
    chosen from it, and [revision] goes on with exactly these two values,
    whatever the marker. *)
Theorem tagged_describe_resolves (tag count hash : string) (dirty : bool) :
  is_empty tag = false -> str_all tag_char tag = true ->
  is_empty count = false -> str_all isdigit count = true ->
  is_empty hash = false -> str_all hash_char hash = true ->
  strip (long_describe tag count hash dirty +:+ str1 nl)
  = long_describe tag count hash dirty
  /\ version_and_hash (long_describe tag count hash dirty)
     = Ok (Some tag, Some hash)
  /\ forall execute st,
       strip (execute describe_cmd) = long_describe tag count hash dirty ->
       revision execute st = propagate execute (Some tag) (Some hash) st.
Proof.
  intros Ht1 Ht2 Hc1 Hc2 Hh1 Hh2.
  assert (Hv := version_and_hash_tagged tag count hash dirty
                  (conj Ht1 Ht2) (conj Hc1 Hc2) (conj Hh1 Hh2)).
  split; [|split].
  - apply strip_long_describe; auto using not_empty.
  - exact Hv.
  - intros execute st He.
    rewrite revision_in_working_copy
      by (rewrite He; apply is_empty_app_l, not_empty, Ht1).
    rewrite He, Hv. reflexivity.
Qed.

Lemma tagged_describe_resolves_witness :
  version_and_hash "v1.0.2-3-gabc1234-dirty" = Ok (Some "v1.0.2", Some "abc1234")
  /\ version_and_hash "v1.0.2-3-gabc1234" = Ok (Some "v1.0.2", Some "abc1234").
Proof.
  split.
  - exact (proj1 (proj2 (tagged_describe_resolves "v1.0.2" "3" "abc1234" true
             eq_refl eq_refl eq_refl eq_refl eq_refl eq_refl))).
  - exact (proj1 (proj2 (tagged_describe_resolves "v1.0.2" "3" "abc1234" false
             eq_refl eq_refl eq_refl eq_refl eq_refl eq_refl))).
Defined.

(** A tag with a hyphen is cut: the search finds its leftmost match after
    the hyphen, and the version is the end of the tag. *)
Lemma hyphenated_tag_is_cut :
  long_describe "v1.0-rc1" "3" "abc1234" false = "v1.0-rc1-3-gabc1234"
  /\ version_and_hash (long_describe "v1.0-rc1" "3" "abc1234" false)
     = Ok (Some "rc1", Some "abc1234")
  /\ version_and_hash (long_describe "v1.0-rc1" "3" "abc1234" false)
     <> Ok (Some "v1.0-rc1", Some "abc1234").
Proof. repeat split. vm_compute. discriminate. Qed.

(** Claim C6, amended.  For a describe output that has no match of the
    tagged pattern and holds a word, the version is ["0.1"] and the hash is
    the first run of word characters of the output, whatever follows it (a
    [-dirty] marker for instance); [revision] goes on with these two
    values. *)
Theorem bare_hash_resolves (pre w rest : string) :
  search describe_pattern (pre +:+ w +:+ rest) = None ->
  str_all (fun c => negb (hash_char c)) pre = true ->
  is_empty w = false -> str_all hash_char w = true ->
  stops hash_char rest = true ->
  version_and_hash (pre +:+ w +:+ rest) = Ok (Some "0.1", Some w)
  /\ forall execute st,
       strip (execute describe_cmd) = pre +:+ w +:+ rest ->
       revision execute st = propagate execute (Some "0.1") (Some w) st.
Proof.
  intros Hnone Hpre Hne Hw Hrest. apply not_empty in Hne.
  destruct (hash_match pre w rest) as (m & Hm & H1); try assumption.
  assert (Hv : version_and_hash (pre +:+ w +:+ rest) = Ok (Some "0.1", Some w)).
  { unfold version_and_hash. rewrite Hnone, Hm, H1. reflexivity. }
  split; [exact Hv|].
  intros execute st He.
  rewrite revision_in_working_copy.
  - rewrite He, Hv. reflexivity.
  - rewrite He. destruct pre; [|reflexivity].
    change ("" +:+ w +:+ rest) with (w +:+ rest). apply is_empty_app_l, Hne.
Qed.

Lemma bare_hash_resolves_witness :
  version_and_hash "abc1234-dirty" = Ok (Some "0.1", Some "abc1234").
Proof.
  exact (proj1 (bare_hash_resolves "" "abc1234" "-dirty"
                  eq_refl eq_refl eq_refl eq_refl eq_refl)).
Defined.

(** A describe output without any word has no match of either pattern:
    the lookup of the group fails on [None]. *)
Lemma describe_without_word_fails :
  is_empty (strip (odd_git describe_cmd)) = false
  /\ search describe_pattern (strip (odd_git describe_cmd)) = None
  /\ version_and_hash (strip (odd_git describe_cmd))
     = Raise (AttributeError "'NoneType' object has no attribute 'group'")
  /\ revision odd_git dev_start
     = (Raise (AttributeError "'NoneType' object has no attribute 'group'"),
        dev_start).
Proof. repeat split. Qed.

(** ** The assignment pattern *)

Lemma rmatch_plus_first p c s g k m :
  p c = true -> k (dropwhile p s) g = Some m ->
  rmatch (Plus p) (String c s) g k = Some m.
Proof.
  intros Hc Hk. cbn [rmatch]. rewrite Hc. apply star_greedy. exact Hk.
Qed.

Lemma rmatch_group_star n p s g :
  rmatch (Group n (Star p)) s g (fun _ g' => Some g')
  = Some (<[n := consumed s (dropwhile p s)]> g).
Proof. rewrite rmatch_group. cbn [rmatch]. apply star_greedy. reflexivity. Qed.

Lemma key_of_assignment name x :
  is_empty name = false -> str_all isword name = true ->
  key_of (name +:+ " = " +:+ x) = Some (Some name).
Proof.
  intros Hne%not_empty Hw. unfold key_of.
  assert (H : exists m,
             match_here assign_pattern (name +:+ " = " +:+ x) = Some m
             /\ group 1 m = Some name).
  { eexists. split.
    - unfold match_here, assign_pattern.
      rewrite rmatch_seq. apply rmatch_group_plus; [assumption..|reflexivity|].
      rewrite rmatch_seq.
      apply (rmatch_plus_greedy isspace " " ("= " +:+ x));
        [reflexivity|discriminate|reflexivity|].
      simpl String.append. rewrite rmatch_seq, rmatch_chr_lit.
      rewrite rmatch_seq. apply rmatch_plus_first; [reflexivity|].
      apply rmatch_group_star.
    - unfold group. rewrite lookup_insert_ne by discriminate.
      apply lookup_insert_eq. }
  destruct H as (m & Hm & H1).
  rewrite (search_here _ _ _ Hm). cbn [fmap option_fmap option_map].
  rewrite H1. reflexivity.
Qed.

(** ** The loop over the documentation configuration *)

Lemma built_line b :
  contains nl b = false ->
  is_line (b +:+ str1 nl) = true /\ complete (b +:+ str1 nl) = true.
Proof.
  induction b as [|c b IH]; [intros _; split; reflexivity|].
  cbn [contains]. intros [Hc Hb]%orb_false_elim.
  destruct (IH Hb) as [H1 H2]. simpl String.append.
  destruct (b +:+ str1 nl) as [|d t] eqn:E; [destruct b; discriminate|].
  cbn [is_line complete]. rewrite Ascii.eqb_sym, Hc. cbn [negb andb].
  split; assumption.
Qed.

Section ConfLine.

Variable version : option string.
Variable yr : Z.

Lemma key_of_version_line : key_of (version_line version) = Some (Some "version").
Proof. apply (key_of_assignment "version"); reflexivity. Qed.

Lemma key_of_release_line : key_of (release_line version) = Some (Some "release").
Proof. apply (key_of_assignment "release"); reflexivity. Qed.

Lemma key_of_copyright_line : key_of (copyright_line yr) = Some (Some "copyright").
Proof.
  apply (key_of_assignment "copyright" ("'(" +:+ str_of_Z yr +:+ _));
    reflexivity.
Qed.

Lemma conf_line_cases line :
  (key_of line = Some (Some "version") /\ conf_line version yr line = version_line version)
  \/ (key_of line = Some (Some "release") /\ conf_line version yr line = release_line version)
  \/ (key_of line = Some (Some "copyright")
      /\ conf_line version yr line = copyright_line yr)
  \/ (has_key "version" line = false /\ has_key "release" line = false
      /\ has_key "copyright" line = false /\ conf_line version yr line = line).
Proof.
  unfold conf_line, has_key.
  destruct (key_of line) as [key|] eqn:E.
  - destruct (decide (key = Some "version")) as [->|H1]; [auto|].
    destruct (decide (key = Some "release")) as [->|H2]; [auto|].
    destruct (decide (key = Some "copyright")) as [->|H3]; [auto 6|].
    right; right; right.
    rewrite !bool_decide_eq_false_2 by congruence. auto.
  - right; right; right.
    rewrite !bool_decide_eq_false_2 by congruence. auto.
Qed.



Lemma version_line_built :
  exists b, version_line version = b +:+ str1 nl /\ no_break b.
Proof.
  exists ("version = " +:+ fmt_r version). split.
  - unfold version_line. rewrite app_assoc_str. reflexivity.
  - apply no_break_app; [split; reflexivity|apply fmt_r_no_break].
Qed.

Lemma release_line_built :
  exists b, release_line version = b +:+ str1 nl /\ no_break b.
Proof.
  exists ("release = " +:+ fmt_r version). split.
  - unfold release_line. rewrite app_assoc_str. reflexivity.
  - apply no_break_app; [split; reflexivity|apply fmt_r_no_break].
Qed.

Lemma copyright_line_built :
  exists b, copyright_line yr = b +:+ str1 nl /\ no_break b.
Proof.
  exists ("copyright = '(" +:+ str_of_Z yr +:+ ", CNES/CLS)'"). split.
  - unfold copyright_line. rewrite !app_assoc_str. reflexivity.
  - apply no_break_app; [split; reflexivity|].
    apply no_break_app; [apply str_of_Z_no_break|split; reflexivity].
Qed.

(** A line stays a line, a complete line stays complete, and no carriage
    return appears. *)
Lemma conf_line_shape line :
  is_line line = true -> contains cr line = false ->
  is_line (conf_line version yr line) = true
  /\ (complete line = true -> complete (conf_line version yr line) = true)
  /\ contains cr (conf_line version yr line) = false.
Proof.
  intros Hl Hcr.
  assert (Hb : forall l, (exists b, l = b +:+ str1 nl /\ no_break b) ->
             is_line l = true /\ (complete line = true -> complete l = true)
             /\ contains cr l = false).
  { intros l (b & -> & Hnl & Hc). destruct (built_line b Hnl) as [H1 H2].
    split; [exact H1|]. split; [intros _; exact H2|].
    rewrite contains_app, Hc. reflexivity. }
  destruct (conf_line_cases line)
    as [[_ ->]|[[_ ->]|[[_ ->]|(_ & _ & _ & ->)]]];
    auto using version_line_built, release_line_built, copyright_line_built.
Qed.

Lemma rewrite_conf_shape ls :
  well_lined ls -> Forall (fun l => contains cr l = false) ls ->
  well_lined (rewrite_conf version yr ls)
  /\ Forall (fun l => contains cr l = false) (rewrite_conf version yr ls).
Proof.
  unfold rewrite_conf.
  induction ls as [|l ls IH]; [intros; split; [exact I|constructor]|].
  intros Hw Hcr. inversion Hcr as [|? ? Hl Hls]; subst.
  destruct ls as [|l' ls].
  - cbn [well_lined map] in *.
    destruct (conf_line_shape l Hw Hl) as (H1 & _ & H3).
    split; [exact H1|]. constructor; [exact H3|constructor].
  - destruct Hw as (Hw1 & Hw2 & Hw3).
    destruct (conf_line_shape l Hw1 Hl) as (H1 & H2 & H3).
    destruct (IH Hw3 Hls) as [IH1 IH2].
    split.
    + change (map _ (l :: l' :: ls))
        with (conf_line version yr l :: map (conf_line version yr) (l' :: ls)).
      cbn [map] in *. cbn [well_lined]. auto.
    + cbn [map] in *. constructor; assumption.
Qed.


End ConfLine.

Lemma contains_join c ls :
  contains c (join ls) = false <-> Forall (fun l => contains c l = false) ls.
Proof.
  induction ls as [|l ls IH]; cbn [join].
  - split; [constructor|reflexivity].
  - rewrite contains_app, orb_false_iff, IH. split.
    + intros [H1 H2]. constructor; assumption.
    + intros H. inversion H. auto.
Qed.

Lemma lines_no_cr s :
  Forall (fun l => contains cr l = false) (lines (universal_newlines s)).
Proof.
  apply contains_join. rewrite join_lines. apply universal_newlines_no_cr.
Qed.

Lemma reread ls :
  well_lined ls -> Forall (fun l => contains cr l = false) ls ->
  lines (universal_newlines (join ls)) = ls.
Proof.
  intros Hw Hcr. rewrite universal_newlines_id by (apply contains_join, Hcr).
  apply lines_join, Hw.
Qed.

Lemma read_lines_file p st c :
  files st !! resolve st p = Some (File c) ->
  read_lines p st = (Ok (lines (universal_newlines c)), st).
Proof.
  intros H. unfold read_lines. rewrite bind_get. cbv zeta. rewrite H.
  reflexivity.
Qed.

Lemma absent_clear_way p q f :
  clear_way f q = true -> absent p (path_prefixes q) f = FileNotFoundError p.
Proof.
  unfold clear_way. intros H. apply absent_not_under_a_file.
  intros a c Ha E. rewrite forallb_forall in H. specialize (H a Ha).
  rewrite E in H. discriminate.
Qed.

Lemma read_lines_absent p st :
  files st !! resolve st p = None ->
  read_lines p st
  = (Raise (absent p (path_prefixes (resolve st p)) (files st)), st).
Proof.
  intros H. unfold read_lines. rewrite bind_get. cbv zeta. rewrite H.
  reflexivity.
Qed.

Lemma write_text_file p text st c :
  files st !! resolve st p = Some (File c) ->
  write_text p text st
  = (Ok tt, with_files (<[resolve st p := File text]> (files st)) st).
Proof. intros H. unfold write_text. rewrite bind_get, H. reflexivity. Qed.

Lemma update_conf_run conf v y st c :
  files st !! resolve st conf = Some (File c) ->
  update_conf conf v y st
  = (Ok tt,
     with_files
       (<[resolve st conf :=
            File (join (rewrite_conf v y (lines (universal_newlines c))))]>
          (files st)) st).
Proof.
  intros H. unfold update_conf.
  rewrite (bind_ok _ _ _ _ _ (read_lines_file _ _ _ H)).
  eapply write_text_file, H.
Qed.

Lemma update_conf_absent conf v y st :
  files st !! resolve st conf = None ->
  update_conf conf v y st
  = (Raise (absent conf (path_prefixes (resolve st conf)) (files st)), st).
Proof.
  intros H. unfold update_conf.
  rewrite (bind_raise _ _ _ _ _ (read_lines_absent _ _ H)). reflexivity.
Qed.

Lemma starts_with_app p x : starts_with p (p +:+ x) = true.
Proof.
  induction p as [|a p IH]; [reflexivity|].
  cbn [String.append starts_with]. rewrite Ascii.eqb_refl. exact IH.
Qed.








(** ** The generated module *)

Lemma reread_first_line a X :
  no_break a ->
  lines (universal_newlines ((a +:+ str1 nl) +:+ X))
  = (a +:+ str1 nl) :: lines (universal_newlines X).
Proof.
  intros [Hnl Hcr].
  rewrite universal_newlines_app
    by (rewrite contains_app, Hcr; reflexivity).
  rewrite app_assoc_str. unfold str1. simpl ("" +:+ _).
  change (String nl "" +:+ ?Y) with (String nl Y).
  apply lines_line, Hnl.
Qed.

Lemma result_line_match t :
  str_all tag_char t = true ->
  exists m,
    search result_pattern
      (("    result = " +:+ str1 dquote +:+ t +:+ str1 dquote) +:+ str1 nl)
    = Some m /\ group 1 m = Some t.
Proof.
  intros Ht. exists (<[1%nat := t]> ∅). split; [|apply lookup_insert_eq].
  apply search_here. unfold match_here, result_pattern.
  rewrite !app_assoc_str.
  rewrite rmatch_seq.
  apply (rmatch_plus_greedy isspace "    "); [reflexivity|discriminate|reflexivity|].
  rewrite rmatch_seq. etrans; [apply (rmatch_lits "result = ")|]. cbv beta.
  unfold str1. simpl String.append.
  rewrite rmatch_seq, rmatch_chr_lit.
  rewrite rmatch_seq, rmatch_group. cbn [rmatch].
  apply star_prefix.
  - eapply str_all_impl; [apply tag_char_dot | exact Ht].
  - cbn [star].
    change (dot dquote) with true. change (dot nl) with false.
    change (is_char dquote nl) with false.
    change (is_char dquote dquote) with true. cbv iota.
    rewrite consumed_app. reflexivity.
Qed.

Lemma recover_skip a X :
  no_break a -> search result_pattern (a +:+ str1 nl) = None ->
  recover (lines (universal_newlines ((a +:+ str1 nl) +:+ X)))
  = recover (lines (universal_newlines X)).
Proof.
  intros Ha Hs. rewrite reread_first_line by exact Ha.
  cbn [recover]. rewrite Hs. reflexivity.
Qed.

Lemma recover_version_module t date :
  str_all tag_char t = true ->
  recover (lines (universal_newlines (version_module t date)))
  = Some (Some t).
Proof.
  intros Ht. unfold version_module, module_lines. cbv zeta.
  cbn [map join].
  do 8 (rewrite recover_skip by (split; reflexivity || (vm_compute; reflexivity))).
  destruct (result_line_match t Ht) as (m & Hm & H1).
  rewrite reread_first_line.
  - cbn [recover]. rewrite Hm, H1. reflexivity.
  - repeat apply no_break_app; try (split; reflexivity).
    split; eapply contains_str_all; try exact Ht; reflexivity.
Qed.

(** ** Files *)

Lemma read_lines_state p st r st' : read_lines p st = (r, st') -> st' = st.
Proof.
  unfold read_lines. rewrite bind_get. cbv zeta.
  destruct (files st !! resolve st p) as [[c|]|]; intros [= _ <-]; reflexivity.
Qed.

Lemma write_text_ok p text st u st' :
  write_text p text st = (Ok u, st') ->
  st' = with_files (<[resolve st p := File text]> (files st)) st.
Proof.
  unfold write_text. rewrite bind_get.
  destruct (files st !! resolve st p) as [[c|]|].
  - intros [= _ <-]. reflexivity.
  - discriminate.
  - destruct (files st !! dirname (resolve st p)) as [[c|]|];
      [discriminate | intros [= _ <-]; reflexivity | discriminate].
Qed.

Lemma write_text_raise p text st e st' :
  write_text p text st = (Raise e, st') -> st' = st.
Proof.
  unfold write_text. rewrite bind_get.
  destruct (files st !! resolve st p) as [[c|]|].
  - discriminate.
  - intros [= _ <-]. reflexivity.
  - destruct (files st !! dirname (resolve st p)) as [[c|]|];
      [intros [= _ <-]; reflexivity | discriminate | intros [= _ <-]; reflexivity].
Qed.

(** A computation that reads the lines of [p] and writes [p] back leaves
    every other path and the working directory as they were. *)
Lemma rewrite_file_frame p (f : list string -> string) st r st' :
  (let* ls := read_lines p in write_text p (f ls)) st = (r, st') ->
  cwd st' = cwd st /\ spawned st' = spawned st
  /\ forall q, q <> resolve st p -> files st' !! q = files st !! q.
Proof.
  unfold bind at 1.
  destruct (read_lines p st) as [[ls|e] st1] eqn:E;
    apply read_lines_state in E as ->.
  - destruct r as [u|e]; intros H.
    + apply write_text_ok in H as ->. repeat split.
      intros q Hq. apply lookup_insert_ne. congruence.
    + apply write_text_raise in H as ->. auto.
  - intros [= _ <-]. auto.
Qed.

(** ** Paths of the working copy *)

Lemma endswith_sep_app a c b :
  endswith_sep (a +:+ String c b) = endswith_sep (String c b).
Proof.
  remember (String c b) as t eqn:Ht.
  induction a as [|x a IH]; [reflexivity|].
  simpl String.append.
  destruct (a +:+ t) as [|y u] eqn:E; [subst t; destruct a; discriminate|].
  exact IH.
Qed.

Lemma path_join2_word a c b :
  is_sep c = false -> path_join2 a (String c b) = base a +:+ String c b.
Proof.
  intros Hc. unfold path_join2, base, startswith_sep. cbn [stops].
  rewrite Hc. cbn [negb]. destruct (is_empty a || endswith_sep a);
    [reflexivity|]. rewrite app_assoc_str. reflexivity.
Qed.

Lemma path_join2_next x c b d e :
  endswith_sep (String c b) = false -> is_sep d = false ->
  path_join2 (x +:+ String c b) (String d e)
  = x +:+ String c b +:+ "/" +:+ String d e.
Proof.
  intros Hb Hd. unfold path_join2, startswith_sep. cbn [stops].
  rewrite Hd, endswith_sep_app, Hb.
  replace (is_empty (x +:+ String c b)) with false by (destruct x; reflexivity).
  cbn [negb orb]. rewrite !app_assoc_str. reflexivity.
Qed.

Lemma meta_path a :
  path_join a ["conda"; "meta.yaml"] = base a +:+ "conda/meta.yaml".
Proof.
  unfold path_join. cbn [fold_left].
  rewrite (path_join2_word a) by reflexivity.
  rewrite (path_join2_next (base a) "c" "onda" "m" "eta.yaml") by reflexivity.
  reflexivity.
Qed.

Lemma conf_path a :
  path_join a ["docs"; "source"; "conf.py"]
  = base a +:+ "docs/source/conf.py".
Proof.
  unfold path_join. cbn [fold_left].
  rewrite (path_join2_word a) by reflexivity.
  rewrite (path_join2_next (base a) "d" "ocs" "s" "ource") by reflexivity.
  cbn [String.append].
  rewrite (path_join2_next (base a) "d" "ocs/source" "c" "onf.py")
    by reflexivity.
  reflexivity.
Qed.

Lemma app_inv_head_str a b c : a +:+ b = a +:+ c -> b = c.
Proof. induction a as [|x a IH]; simpl; [auto|]. intros [= H]. auto. Qed.

Lemma startswith_sep_app x c t :
  is_sep c = false ->
  startswith_sep (x +:+ String c t) = startswith_sep x.
Proof.
  intros Hc. destruct x as [|d x]; [|reflexivity].
  unfold startswith_sep. cbn [String.append stops]. rewrite Hc. reflexivity.
Qed.

Lemma resolve_inj st c t c' t' :
  is_sep c = false -> is_sep c' = false ->
  resolve st (base (cwd st) +:+ String c t)
  = resolve st (base (cwd st) +:+ String c' t') ->
  String c t = String c' t'.
Proof.
  intros Hc Hc'. unfold resolve, path_join2.
  rewrite !startswith_sep_app by assumption.
  destruct (startswith_sep (base (cwd st)));
    [|destruct (is_empty (cwd st) || endswith_sep (cwd st))];
    rewrite <- ?app_assoc_str; intros H;
    repeat apply app_inv_head_str in H; exact H.
Qed.

Section Propagation.

Variable execute : string -> string.

Lemma update_meta_frame p v st r st' :
  update_meta p v st = (r, st') ->
  cwd st' = cwd st /\ spawned st' = spawned st
  /\ forall q, q <> resolve st p -> files st' !! q = files st !! q.
Proof.
  exact (rewrite_file_frame p (fun ls => join (map (update_meta_line v) ls))
           st r st').
Qed.

Lemma update_conf_frame p v y st r st' :
  update_conf p v y st = (r, st') ->
  cwd st' = cwd st /\ spawned st' = spawned st
  /\ forall q, q <> resolve st p -> files st' !! q = files st !! q.
Proof.
  exact (rewrite_file_frame p (fun ls => join (rewrite_conf v y ls)) st r st').
Qed.

Lemma propagate_ok version sha1 st v st1 :
  propagate execute version sha1 st = (Ok v, st1) ->
  v = version /\ cwd st1 = cwd st
  /\ exists date,
       files st1 !! resolve st (path_join (cwd st) ["src"; "pytide"; "version.py"])
       = Some (File (version_module (fmt_s version) date)).
Proof.
  unfold propagate. rewrite bind_get.
  intros (d & st0 & H0 & H)%bind_ok_inv.
  rewrite lift_run in H0. injection H0 as _ <-.
  apply bind_ok_inv in H as (present & st0 & H0 & H).
  rewrite path_exists_run in H0. injection H0 as _ <-.
  apply bind_ok_inv in H as (u2 & st2 & H2 & H).
  assert (Hc2 : cwd st2 = cwd st).
  { destruct present.
    - apply update_meta_frame in H2 as [Hc _]. exact Hc.
    - injection H2 as _ <-. reflexivity. }
  apply bind_ok_inv in H as (u3 & st3 & H3 & H).
  apply update_conf_frame in H3 as [Hc3 _].
  apply bind_ok_inv in H as (u4 & st4 & H4 & H).
  apply write_text_ok in H4 as ->.
  injection H as <- <-. split; [reflexivity|]. split.
  - cbn. congruence.
  - eexists. cbn [files with_files]. unfold resolve.
    rewrite Hc3, Hc2. apply lookup_insert_eq.
Qed.

Lemma propagate_conf_absent version sha1 st :
  files st !! resolve st (path_join (cwd st) ["docs"; "source"; "conf.py"])
    = None ->
  exists e st', propagate execute version sha1 st = (Raise e, st').
Proof.
  intros Hconf. unfold propagate. rewrite bind_get.
  unfold bind at 1. rewrite lift_run.
  destruct (commit_date execute sha1) as [d|e]; [|eauto].
  rewrite (bind_ok _ _ _ _ _ (path_exists_run _ _)).
  set (present := bool_decide _). clearbody present.
  unfold bind at 1.
  match goal with
  | |- context [match ?m st with pair _ _ => _ end] =>
      destruct (m st) as [[u|e] st2] eqn:H2; [|eauto]
  end.
  assert (Hst : cwd st2 = cwd st /\
            forall q, q <> resolve st (path_join (cwd st) ["conda"; "meta.yaml"]) ->
                      files st2 !! q = files st !! q).
  { destruct present.
    - apply update_meta_frame in H2 as (Hc & _ & Hf). auto.
    - injection H2 as _ <-. auto. }
  destruct Hst as [Hc Hf].
  assert (Hconf2 :
    files st2 !! resolve st2 (path_join (cwd st) ["docs"; "source"; "conf.py"])
    = None).
  { unfold resolve at 1. rewrite Hc.
    fold (resolve st (path_join (cwd st) ["docs"; "source"; "conf.py"])).
    rewrite Hf; [exact Hconf|].
    rewrite conf_path, meta_path. intros E.
    apply resolve_inj in E; [discriminate|reflexivity|reflexivity]. }
  rewrite (bind_raise _ _ _ _ _ (update_conf_absent _ version (year d) _ Hconf2)).
  eauto.
Qed.

End Propagation.

(** Claim C4.  When [revision] ran in a working copy and returned a
    version, the generated module holds that version, and a following run
    that gets no describe output returns the same version and changes
    nothing. *)
Theorem persisted_version_recovered (execute1 execute2 : string -> string)
    (st st1 : proc) (v : option string) :
  is_empty (strip (execute1 describe_cmd)) = false ->
  revision execute1 st = (Ok v, st1) ->
  is_empty (strip (execute2 describe_cmd)) = true ->
  (exists date,
     files st1 !! resolve st1 (path_join (cwd st1) ["src"; "pytide"; "version.py"])
     = Some (File (version_module (fmt_s v) date)))
  /\ revision execute2 st1 = (Ok v, st1).
Proof.
  intros Hdev Hrun Hnone.
  rewrite revision_in_working_copy in Hrun by exact Hdev.
  apply bind_ok_inv in Hrun as ([version sha1] & st0 & Hvh & Hrun).
  rewrite lift_run in Hvh. injection Hvh as Hvh <-.
  apply version_and_hash_shape in Hvh as (t & -> & Ht).
  apply propagate_ok in Hrun as (-> & Hcwd & date & Hfile).
  assert (Hfile1 :
    files st1 !! resolve st1 (path_join (cwd st1) ["src"; "pytide"; "version.py"])
    = Some (File (version_module t date)))
    by (unfold resolve in *; rewrite Hcwd; exact Hfile).
  split; [exists date; exact Hfile1|].
  unfold revision. rewrite bind_get, Hnone.
  rewrite (bind_ok _ _ _ _ _ (read_lines_file _ _ _ Hfile1)).
  rewrite recover_version_module by exact Ht. reflexivity.
Qed.

Lemma persisted_version_recovered_witness :
  revision no_git (revision git_tagged dev_start).2
  = (Ok (Some "v1.0.2"), (revision git_tagged dev_start).2).
Proof.
  apply (persisted_version_recovered git_tagged no_git dev_start).
  - reflexivity.
  - vm_compute. reflexivity.
  - reflexivity.
Defined.

(** Claim C7, amended.  With no describe output, [revision] raises, and
    [main] with it before the packaging framework is entered, leaving the
    process as it was.  When the generated module does not exist the
    exception is the one of [open], with the path of the module:
    [FileNotFoundError], or [NotADirectoryError] where a regular file
    stands on the way to it; it is [FileNotFoundError] whenever no path on
    the way is a regular file.  When no line of the module matches the
    version pattern it is an [AssertionError] without any message. *)
Theorem version_unavailable (execute : string -> string)
    (setup : option string -> M unit) (st : proc) :
  is_empty (strip (execute describe_cmd)) = true ->
  let module := path_join (cwd st) ["src"; "pytide"; "version.py"] in
  (files st !! resolve st module = None ->
     (exists e,
        (e = FileNotFoundError module \/ e = NotADirectoryError module)
        /\ revision execute st = (Raise e, st)
        /\ main execute setup st = (Raise e, st))
     /\ (clear_way (files st) (resolve st module) = true ->
           revision execute st = (Raise (FileNotFoundError module), st)
           /\ main execute setup st = (Raise (FileNotFoundError module), st)))
  /\ (forall c,
        files st !! resolve st module = Some (File c) ->
        recover (lines (universal_newlines c)) = None ->
        revision execute st = (Raise (AssertionError ""), st)
        /\ main execute setup st = (Raise (AssertionError ""), st)).
Proof.
  intros Hnone module.
  assert (Hmain : forall e, revision execute st = (Raise e, st) ->
            revision execute st = (Raise e, st)
            /\ main execute setup st = (Raise e, st)).
  { intros e H. split; [exact H|]. unfold main. apply bind_raise, H. }
  split.
  - intros Habsent.
    assert (Hrev : revision execute st
                   = (Raise (absent module (path_prefixes (resolve st module))
                               (files st)), st)).
    { unfold revision. rewrite bind_get, Hnone. fold module.
      apply bind_raise, read_lines_absent, Habsent. }
    split.
    + eexists. split; [|apply Hmain, Hrev].
      destruct (absent_cases module (path_prefixes (resolve st module))
                  (files st)) as [-> | ->]; auto.
    + intros Hclear. apply Hmain. rewrite Hrev.
      rewrite (absent_clear_way _ _ _ Hclear). reflexivity.
  - intros c Hfile Hrec. apply Hmain. unfold revision.
    rewrite bind_get, Hnone. fold module.
    rewrite (bind_ok _ _ _ _ _ (read_lines_file _ _ _ Hfile)), Hrec.
    reflexivity.
Qed.

Lemma version_unavailable_witness :
  revision no_git dev_start
  = (Raise (FileNotFoundError "/w/src/pytide/version.py"), dev_start).
Proof.
  apply (version_unavailable no_git (fun _ => ret tt) dev_start eq_refl);
    vm_compute; reflexivity.
Defined.

Lemma assertion_without_message :
  exists e,
    revision no_git stale_start = (Raise e, stale_start) /\ message e = "".
Proof. exists (AssertionError ""). split; vm_compute; reflexivity. Qed.

(** Claim C1, amended.  In a working copy (the describe output is not
    empty) without [docs/source/conf.py], [revision] never returns a
    version: it raises.  Once the version, the hash and the commit date are
    found, an absent [conda/meta.yaml] is passed over in silence, and the
    exception is the one of [open] on [conf.py], raised before anything is
    written: [FileNotFoundError], or [NotADirectoryError] where a regular
    file stands on the way to it; it is [FileNotFoundError] whenever no
    path on the way is a regular file. *)
Theorem conf_required (execute : string -> string) (st : proc) :
  is_empty (strip (execute describe_cmd)) = false ->
  let conf := path_join (cwd st) ["docs"; "source"; "conf.py"] in
  let meta := path_join (cwd st) ["conda"; "meta.yaml"] in
  files st !! resolve st conf = None ->
  (exists e st', revision execute st = (Raise e, st'))
  /\ (forall version sha1 date,
        version_and_hash (strip (execute describe_cmd)) = Ok (version, sha1) ->
        commit_date execute sha1 = Ok date ->
        files st !! resolve st meta = None ->
        (exists e,
           (e = FileNotFoundError conf \/ e = NotADirectoryError conf)
           /\ revision execute st = (Raise e, st))
        /\ (clear_way (files st) (resolve st conf) = true ->
              revision execute st = (Raise (FileNotFoundError conf), st))).
Proof.
  intros Hdev conf meta Hconf. split.
  - rewrite revision_in_working_copy by exact Hdev.
    unfold bind at 1. rewrite lift_run.
    destruct (version_and_hash _) as [[version sha1]|e]; [|eauto].
    apply propagate_conf_absent, Hconf.
  - intros version sha1 date Hvh Hdate Hmeta.
    assert (Hrev : revision execute st
                   = (Raise (absent conf (path_prefixes (resolve st conf))
                               (files st)), st)).
    { rewrite revision_in_working_copy by exact Hdev.
      rewrite Hvh. unfold bind at 1. rewrite lift_run.
      unfold propagate. rewrite bind_get.
      cbn [fst snd]. rewrite Hdate. unfold bind at 1. rewrite lift_run.
      rewrite (bind_ok _ _ _ _ _ (path_exists_run _ _)).
      fold meta. rewrite Hmeta.
      rewrite bool_decide_eq_false_2 by apply is_Some_None.
      unfold bind at 1, ret at 1.
      apply bind_raise, update_conf_absent, Hconf. }
    split.
    + eexists. split; [|exact Hrev].
      destruct (absent_cases conf (path_prefixes (resolve st conf)) (files st))
        as [-> | ->]; auto.
    + intros Hclear. rewrite Hrev, (absent_clear_way _ _ _ Hclear).
      reflexivity.
Qed.

Lemma conf_required_witness :
  revision git_tagged bare_start
  = (Raise (FileNotFoundError "/w/docs/source/conf.py"), bare_start).
Proof.
  refine (proj2 (proj2 (conf_required git_tagged bare_start eq_refl _)
                   (Some "v1.0.2") (Some "abc1234")
                   {| year := 2019; month := 1; day := 1 |} _ _ _) _);
    vm_compute; reflexivity.
Defined.

Lemma revision_fails_without_conf :
  is_empty (strip (git_tagged describe_cmd)) = false
  /\ files bare_start !! "/w/docs/source/conf.py" = None
  /\ revision git_tagged bare_start
     = (Raise (FileNotFoundError "/w/docs/source/conf.py"), bare_start).
Proof. repeat split; vm_compute; reflexivity. Qed.

(** ** The native build *)

Section NativeBuildFacts.

Variable h : host.
Variable tool : list string -> proc -> bool * gmap string node.
Variable self : BuildExt.

Lemma spawn_cwd cmd st r st' :
  spawn tool self cmd st = (r, st') -> cwd st' = cwd st.
Proof.
  unfold spawn. destruct (dry_run self).
  - intros [= _ <-]. reflexivity.
  - destruct (tool cmd st) as [[|] f]; intros [= _ <-]; reflexivity.
Qed.

Lemma spawn_raise cmd st e st' :
  spawn tool self cmd st = (Raise e, st') -> e = DistutilsExecError cmd.
Proof.
  unfold spawn. destruct (dry_run self).
  - discriminate.
  - destruct (tool cmd st) as [[|] f]; intros [= <- _]; reflexivity.
Qed.

Lemma eigen_state st r st' : eigen h st = (r, st') -> st' = st.
Proof.
  unfold eigen, bind, path_exists, get, ret, raise.
  repeat (simpl; case_bool_decide); simpl; intros [= _ <-]; reflexivity.
Qed.

Lemma eigen_raise st e st' :
  eigen h st = (Raise e, st') -> e = RuntimeError eigen_msg.
Proof.
  unfold eigen, bind, path_exists, get, ret, raise.
  repeat (simpl; case_bool_decide); simpl; intros [= <- _]; reflexivity.
Qed.

Lemma is_conda_run st : exists b, is_conda h st = (Ok b, st).
Proof.
  unfold is_conda, bind, path_exists, get, ret.
  simpl; case_bool_decide; simpl; eauto.
Qed.

Lemma set_cmake_user_options_state st r st' :
  set_cmake_user_options h self st = (r, st') -> st' = st.
Proof.
  unfold set_cmake_user_options.
  destruct (is_conda_run st) as [b Hb]. rewrite (bind_ok _ _ _ _ _ Hb).
  destruct (EIGEN3_INCLUDE_DIR self).
  - intros [= _ <-]. reflexivity.
  - destruct b.
    + unfold bind. destruct (eigen h st) as [[a|e] st1] eqn:He;
        apply eigen_state in He; subst; intros [= _ <-]; reflexivity.
    + intros [= _ <-]. reflexivity.
Qed.

Lemma set_cmake_user_options_raise st e st' :
  set_cmake_user_options h self st = (Raise e, st') ->
  e = RuntimeError eigen_msg.
Proof.
  unfold set_cmake_user_options.
  destruct (is_conda_run st) as [b Hb]. rewrite (bind_ok _ _ _ _ _ Hb).
  destruct (EIGEN3_INCLUDE_DIR self).
  - discriminate.
  - destruct b.
    + unfold bind. destruct (eigen h st) as [[a|e0] st1] eqn:He.
      * discriminate.
      * apply eigen_raise in He. intros [= <- _]. exact He.
    + discriminate.
Qed.

End NativeBuildFacts.

Lemma path_join2_absolute a b : startswith_sep b = true -> path_join2 a b = b.
Proof. unfold path_join2. intros ->. reflexivity. Qed.

Lemma locate_absolute st p : startswith_sep p = true -> locate st p = p.
Proof.
  intros H. unfold locate. destruct (decide (p = ".")) as [->|_];
    [discriminate | apply path_join2_absolute, H].
Qed.

Lemma mkdirs_raise given target ps f e f' :
  mkdirs given target ps f = (Raise e, f') ->
  exists p, e = FileExistsError p \/ e = NotADirectoryError p.
Proof.
  revert f. induction ps as [|p ps IH]; intros f; simpl.
  - discriminate.
  - destruct (f !! p) as [[c|]|]; eauto.
    destruct (decide (p = target)); intros [= <- _]; eauto.
Qed.

Lemma mkdir_parents_raise p st e st' :
  mkdir_parents p st = (Raise e, st') ->
  exists q, e = FileExistsError q \/ e = NotADirectoryError q.
Proof.
  unfold mkdir_parents.
  destruct (mkdirs _ _ _) as [r f] eqn:Hm. intros [= -> _].
  eapply mkdirs_raise, Hm.
Qed.

Lemma assemble_raise h self extdir user e :
  assemble h self extdir user = Raise e -> exists m, e = TypeError m.
Proof.
  unfold assemble. destruct (negb _).
  - destruct (cpu_count h); [discriminate|]. intros [= <-]. eauto.
  - discriminate.
Qed.

Ltac step H :=
  unfold bind at 1;
  match goal with
  | |- context [match ?m ?st with pair _ _ => _ end] =>
      destruct (m st) as [[?|?] ?] eqn:H
  end.

Section BuildCmake.

Variable h : host.
Variable tool : list string -> proc -> bool * gmap string node.
Variable self : BuildExt.

(** Claim C2.  The working directory is to be restored whatever the
    outcome; the program restores it only when [build_cmake] returns.  When
    one of the two external commands fails, the last [os.chdir] is not
    reached and the exception leaves the process in the build directory. *)
Theorem build_cmake_cwd (ext : string) (st : proc) r st' :
  startswith_sep (cwd st) = true ->
  build_cmake h tool self ext st = (r, st') ->
  (forall u, r = Ok u -> cwd st' = cwd st) /\
  (forall cmd, r = Raise (DistutilsExecError cmd) ->
     cwd st' = locate st (temp_dir self)).
Proof.
  intros Habs. unfold build_cmake.
  rewrite bind_get.
  step H1.
  2:{ intros [= <- <-]. apply mkdir_parents_raise in H1 as [q [->| ->]];
      split; intros; discriminate. }
  apply mkdir_parents_frame in H1 as [Hc1 Hs1].
  step H2.
  2:{ intros [= <- <-]. apply set_cmake_user_options_raise in H2 as ->.
      split; intros; discriminate. }
  apply set_cmake_user_options_state in H2 as ->.
  unfold bind at 1. rewrite lift_run.
  destruct (assemble _ _ _ _) as [args|e] eqn:H3.
  2:{ intros [= <- <-]. apply assemble_raise in H3 as [m ->].
      split; intros; discriminate. }
  step H4.
  2:{ intros [= <- <-]. apply chdir_raise in H4 as [-> [-> | ->]];
      split; intros; discriminate. }
  apply chdir_ok in H4 as (Hc4 & _ & _).
  step H5.
  2:{ intros [= <- <-]. pose proof (spawn_cwd _ _ _ _ _ _ H5) as Hc5.
      apply spawn_raise in H5 as ->. split; intros ? [=].
      rewrite Hc5, Hc4. unfold locate, resolve. rewrite Hc1. reflexivity. }
  pose proof (spawn_cwd _ _ _ _ _ _ H5) as Hc5.
  step H6.
  2:{ intros [= <- <-]. destruct (dry_run self); simpl in H6.
      - discriminate.
      - pose proof (spawn_cwd _ _ _ _ _ _ H6) as Hc6.
        apply spawn_raise in H6 as ->. split; intros ? [=].
        rewrite Hc6, Hc5, Hc4. unfold locate, resolve. rewrite Hc1.
        reflexivity. }
  intros H7. destruct r as [u|e].
  - apply chdir_ok in H7 as (Hc7 & _ & _). split; [|discriminate].
    intros _ _. rewrite Hc7. apply locate_absolute, Habs.
  - apply chdir_raise in H7 as [-> [-> | ->]]; split; intros; discriminate.
Qed.

End BuildCmake.

Lemma build_cmake_cwd_witness :
  let out := build_cmake conda_host tool_ok core_ext "pytide.core" conda_start in
  fst out = Ok tt /\ cwd (snd out) = cwd conda_start.
Proof.
  assert (E : build_cmake conda_host tool_ok core_ext "pytide.core" conda_start
              = (Ok tt, snd (build_cmake conda_host tool_ok core_ext
                               "pytide.core" conda_start)))
    by (vm_compute; reflexivity).
  split.
  - rewrite E. reflexivity.
  - exact (proj1 (build_cmake_cwd conda_host tool_ok core_ext "pytide.core"
                    conda_start _ _ eq_refl E) tt eq_refl).
Defined.

Lemma build_cmake_failure_leaves_build_dir :
  let out := build_cmake conda_host tool_fails core_ext "pytide.core" conda_start in
  (exists cmd, fst out = Raise (DistutilsExecError cmd))
  /\ cwd (snd out) = "/w/build/temp"
  /\ cwd (snd out) <> cwd conda_start.
Proof.
  vm_compute. split; [eexists; reflexivity|]. split; [reflexivity|discriminate].
Qed.

Section Options.

Variable h : host.
Variable tool : list string -> proc -> bool * gmap string node.
Variable self : BuildExt.

Lemma assemble_keeps_user extdir user args x :
  assemble h self extdir user = Ok args -> In x user -> In x args.1.
Proof.
  unfold assemble. intros H Hx.
  destruct (negb _).
  - destruct (cpu_count h); [|discriminate].
    case_bool_decide; injection H as <-;
      cbn [fst app In]; rewrite ?in_app_iff; auto 10.
  - injection H as <-. cbn [fst app In]. rewrite ?in_app_iff. auto 10.
Qed.

Lemma override_used (dir : string) :
  EIGEN3_INCLUDE_DIR self = Some dir ->
  (forall st,
     set_cmake_user_options h self st
     = (Ok (cxx_definition self ++ ["-DEIGEN3_INCLUDE_DIR=" +:+ dir]), st))
  /\ (forall extdir args,
        assemble h self extdir
          (cxx_definition self ++ ["-DEIGEN3_INCLUDE_DIR=" +:+ dir]) = Ok args ->
        In ("-DEIGEN3_INCLUDE_DIR=" +:+ dir) args.1)
  /\ (forall ext st st1,
        mkdir_parents (temp_dir self) st = (Ok tt, st1) ->
        build_cmake h tool self ext st
        = (let* args :=
             lift (assemble h self
                     (ext_dir self st ext)
                     (cxx_definition self ++ ["-DEIGEN3_INCLUDE_DIR=" +:+ dir])) in
           chdir (temp_dir self) ;;
           spawn tool self (configure_cmd (cwd st) args.1) ;;
           (if negb (dry_run self) then spawn tool self (build_cmd args.2)
            else ret tt) ;;
           chdir (cwd st)) st1).
Proof.
  intros Hdir.
  assert (Hopt : forall st,
     set_cmake_user_options h self st
     = (Ok (cxx_definition self ++ ["-DEIGEN3_INCLUDE_DIR=" +:+ dir]), st)).
  { intros st. unfold set_cmake_user_options.
    destruct (is_conda_run h st) as [b Hb]. rewrite (bind_ok _ _ _ _ _ Hb).
    rewrite Hdir. reflexivity. }
  split; [exact Hopt|]. split.
  - intros extdir args Ha. eapply assemble_keeps_user; [exact Ha|].
    apply in_or_app. right. left. reflexivity.
  - intros ext st st1 Hm. unfold build_cmake. rewrite bind_get.
    rewrite (bind_ok _ _ _ _ _ Hm).
    rewrite (bind_ok _ _ _ _ _ (Hopt st1)). reflexivity.
Qed.

(** Claim C3, amended.  Without an explicit include directory, in a conda
    environment, when none of [<prefix>/include/eigen3],
    [<prefix>/Library/include/eigen3] and the parent directory of the
    latter exists, [eigen] and [set_cmake_user_options] raise
    [RuntimeError], and so does [build_cmake] once the build directory is
    made, before any external command is run. *)
Theorem eigen_not_found (st : proc) :
  EIGEN3_INCLUDE_DIR self = None ->
  is_conda h st = (Ok true, st) ->
  files st !! resolve st (path_join (prefix h) ["include"; "eigen3"]) = None ->
  files st !! resolve st (path_join (prefix h) ["Library"; "include"; "eigen3"])
    = None ->
  files st !! resolve st
    (dirname (path_join (prefix h) ["Library"; "include"; "eigen3"])) = None ->
  eigen h st = (Raise (RuntimeError eigen_msg), st)
  /\ set_cmake_user_options h self st = (Raise (RuntimeError eigen_msg), st)
  /\ (forall ext st0,
        mkdir_parents (temp_dir self) st0 = (Ok tt, st) ->
        build_cmake h tool self ext st0 = (Raise (RuntimeError eigen_msg), st)
        /\ spawned st = spawned st0).
Proof.
  intros Hdir Hconda H1 H2 H3.
  assert (He : eigen h st = (Raise (RuntimeError eigen_msg), st)).
  { unfold eigen. rewrite (bind_ok _ _ _ _ _ (path_exists_run _ _)).
    rewrite H1. rewrite bool_decide_eq_false_2 by (apply is_Some_None).
    rewrite (bind_ok _ _ _ _ _ (path_exists_run _ _)).
    rewrite H2. rewrite bool_decide_eq_false_2 by (apply is_Some_None).
    cbn [negb]. rewrite (bind_ok _ _ _ _ _ (path_exists_run _ _)).
    rewrite H3. rewrite bool_decide_eq_false_2 by (apply is_Some_None).
    reflexivity. }
  assert (Ho : set_cmake_user_options h self st
               = (Raise (RuntimeError eigen_msg), st)).
  { unfold set_cmake_user_options. rewrite (bind_ok _ _ _ _ _ Hconda).
    rewrite Hdir. rewrite (bind_raise _ _ _ _ _ He). reflexivity. }
  split; [exact He|]. split; [exact Ho|].
  intros ext st0 Hm. split.
  - unfold build_cmake. rewrite bind_get. rewrite (bind_ok _ _ _ _ _ Hm).
    rewrite (bind_raise _ _ _ _ _ Ho). reflexivity.
  - apply mkdir_parents_frame in Hm as [_ Hs]. exact Hs.
Qed.

End Options.

(** Claim C9.  When the user gives [build] an include directory for
    Eigen3, it becomes the class attribute of [BuildExt]; the options are
    then the compiler definition followed by the Eigen3 definition made of
    that directory as it is, in every state of the file system (the probe
    [eigen] has no part in the result and cannot fail it), the definition
    is among the arguments of the configure command, and [build_cmake]
    runs the commands assembled from it. *)
Theorem explicit_eigen_override (h : host)
    (tool : list string -> proc -> bool * gmap string node)
    (b : Build) (ext0 : BuildExt) (dir : string) :
  eigen_root b = Some dir ->
  let self := Build_run b ext0 in
  let definition := "-DEIGEN3_INCLUDE_DIR=" +:+ dir in
  EIGEN3_INCLUDE_DIR self = Some dir
  /\ (forall st,
        set_cmake_user_options h self st
        = (Ok (cxx_definition self ++ [definition]), st))
  /\ (forall extdir args,
        assemble h self extdir (cxx_definition self ++ [definition]) = Ok args ->
        In definition args.1)
  /\ (forall ext st st1,
        mkdir_parents (temp_dir self) st = (Ok tt, st1) ->
        build_cmake h tool self ext st
        = (let* args :=
             lift (assemble h self
                     (ext_dir self st ext)
                     (cxx_definition self ++ [definition])) in
           chdir (temp_dir self) ;;
           spawn tool self (configure_cmd (cwd st) args.1) ;;
           (if negb (dry_run self) then spawn tool self (build_cmd args.2)
            else ret tt) ;;
           chdir (cwd st)) st1).
Proof.
  intros Hroot self definition.
  assert (Hdir : EIGEN3_INCLUDE_DIR self = Some dir)
    by (unfold self, Build_run; cbn; rewrite Hroot; reflexivity).
  split; [exact Hdir|]. exact (override_used h tool self dir Hdir).
Qed.

Lemma explicit_eigen_override_witness :
  set_cmake_user_options conda_host
    (Build_run {| cxx_compiler := None; eigen_root := Some "/usr/include/eigen3" |}
       core_ext)
    eigen_start
  = (Ok ["-DEIGEN3_INCLUDE_DIR=/usr/include/eigen3"], eigen_start)
  /\ eigen conda_host eigen_start
     = (Ok "-DEIGEN3_INCLUDE_DIR=/opt/conda/include/eigen3", eigen_start).
Proof.
  split.
  - exact (proj1 (proj2 (explicit_eigen_override conda_host tool_ok
             {| cxx_compiler := None; eigen_root := Some "/usr/include/eigen3" |}
             core_ext "/usr/include/eigen3" eq_refl)) eigen_start).
  - vm_compute. reflexivity.
Defined.

Lemma eigen_not_found_witness :
  set_cmake_user_options conda_host core_ext lean_start
  = (Raise (RuntimeError eigen_msg), lean_start)
  /\ build_cmake conda_host tool_ok core_ext "pytide.core" lean_start
     = (Raise (RuntimeError eigen_msg), lean_start)
  /\ spawned lean_start = [].
Proof.
  assert (H := eigen_not_found conda_host tool_ok core_ext lean_start).
  destruct H as (_ & H1 & H2); try (vm_compute; reflexivity).
  split; [exact H1|].
  destruct (H2 "pytide.core" lean_start) as [H3 _]; [vm_compute; reflexivity|].
  split; [exact H3 | reflexivity].
Defined.

Lemma eigen_falls_back_to_library_include :
  EIGEN3_INCLUDE_DIR core_ext = None
  /\ is_conda conda_host conda_start = (Ok true, conda_start)
  /\ files conda_start !! "/opt/conda/include/eigen3" = None
  /\ files conda_start !! "/opt/conda/Library/include/eigen3" = None
  /\ set_cmake_user_options conda_host core_ext conda_start
     = (Ok ["-DEIGEN3_INCLUDE_DIR=/opt/conda/Library/include"], conda_start)
  /\ (build_cmake conda_host tool_ok core_ext "pytide.core" conda_start).1 = Ok tt
  /\ length (spawned
               (build_cmake conda_host tool_ok core_ext "pytide.core"
                  conda_start).2) = 2%nat.
Proof. repeat split; vm_compute; reflexivity. Qed.

(** * Further properties *)

(** ** The packaging metadata *)

Lemma no_line_feed_dot s : contains nl s = false -> str_all dot s = true.
Proof.
  induction s as [|c s IH]; [reflexivity|].
  cbn [contains str_all]. intros [Hc Hs]%orb_false_elim.
  unfold dot at 1. rewrite Ascii.eqb_sym, Hc, (IH Hs). reflexivity.
Qed.

Lemma meta_line_matches v :
  no_break (fmt_s v) -> exists m, search meta_pattern (meta_line v) = Some m.
Proof.
  intros [Hnl _]. exists ∅. apply search_here.
  unfold match_here, meta_pattern, meta_line.
  rewrite rmatch_seq. etrans; [apply (rmatch_lits "{% set version = ")|].
  cbv beta. unfold str1. simpl String.append.
  rewrite rmatch_seq, rmatch_chr_lit. rewrite rmatch_seq. cbn [rmatch].
  apply star_prefix; [apply no_line_feed_dot, Hnl|].
  vm_compute. reflexivity.
Qed.

Lemma meta_line_built v :
  no_break (fmt_s v) -> exists b, meta_line v = b +:+ str1 nl /\ no_break b.
Proof.
  intros Hv.
  exists ("{% set version = " +:+ str1 dquote +:+ fmt_s v +:+ str1 dquote +:+ " %}").
  split.
  - unfold meta_line. rewrite !app_assoc_str. reflexivity.
  - repeat apply no_break_app; try (split; reflexivity). exact Hv.
Qed.

Lemma update_meta_line_twice v1 v2 line :
  no_break (fmt_s v1) ->
  update_meta_line v2 (update_meta_line v1 line) = update_meta_line v2 line.
Proof.
  intros Hv. unfold update_meta_line.
  destruct (search meta_pattern line) eqn:E; [|rewrite E; reflexivity].
  destruct (meta_line_matches v1 Hv) as [m ->]. reflexivity.
Qed.

Lemma update_meta_lines_shape v ls :
  no_break (fmt_s v) ->
  well_lined ls -> Forall (fun l => contains cr l = false) ls ->
  well_lined (map (update_meta_line v) ls)
  /\ Forall (fun l => contains cr l = false) (map (update_meta_line v) ls).
Proof.
  intros Hv.
  assert (Hone : forall l, is_line l = true -> contains cr l = false ->
            is_line (update_meta_line v l) = true
            /\ (complete l = true -> complete (update_meta_line v l) = true)
            /\ contains cr (update_meta_line v l) = false).
  { intros l Hl Hcr. unfold update_meta_line.
    destruct (search meta_pattern l); [|auto].
    destruct (meta_line_built v Hv) as (b & -> & Hnl & Hc).
    destruct (built_line b Hnl) as [H1 H2].
    split; [exact H1|]. split; [intros _; exact H2|].
    rewrite contains_app, Hc. reflexivity. }
  induction ls as [|l ls IH]; [intros; split; [exact I|constructor]|].
  intros Hw Hcr. inversion Hcr as [|? ? Hl Hls]; subst.
  destruct ls as [|l' ls].
  - cbn [well_lined map] in *. destruct (Hone l Hw Hl) as (H1 & _ & H3).
    split; [exact H1|]. constructor; [exact H3|constructor].
  - destruct Hw as (Hw1 & Hw2 & Hw3).
    destruct (Hone l Hw1 Hl) as (H1 & H2 & H3).
    destruct (IH Hw3 Hls) as [IH1 IH2]. split.
    + cbn [map] in *. cbn [well_lined]. auto.
    + cbn [map] in *. constructor; assumption.
Qed.

Lemma update_meta_run p v st c :
  files st !! resolve st p = Some (File c) ->
  update_meta p v st
  = (Ok tt,
     with_files
       (<[resolve st p :=
            File (join (map (update_meta_line v) (lines (universal_newlines c))))]>
          (files st)) st).
Proof.
  intros H. unfold update_meta.
  rewrite (bind_ok _ _ _ _ _ (read_lines_file _ _ _ H)).
  eapply write_text_file, H.
Qed.

(** Property X1.  Two updates of the metadata in a row leave what the
    second alone leaves: the line written for a version is found again by
    the pattern. *)
Theorem update_meta_last_wins (path : string) (v1 v2 : option string)
    (st : proc) (c : string) :
  files st !! resolve st path = Some (File c) ->
  no_break (fmt_s v1) ->
  (update_meta path v1 ;; update_meta path v2) st = update_meta path v2 st.
Proof.
  intros Hf Hv.
  set (L0 := lines (universal_newlines c)).
  destruct (update_meta_lines_shape v1 L0 Hv (lines_well_lined _) (lines_no_cr _))
    as [Hw Hcr].
  rewrite (bind_ok _ _ _ _ _ (update_meta_run path v1 st c Hf)). fold L0.
  set (st1 := with_files _ st).
  assert (Hf1 : files st1 !! resolve st1 path
                = Some (File (join (map (update_meta_line v1) L0))))
    by apply lookup_insert_eq.
  rewrite (update_meta_run path v2 st1 _ Hf1), (update_meta_run path v2 st c Hf).
  rewrite (reread _ Hw Hcr). fold L0.
  rewrite map_map.
  rewrite (map_ext _ (update_meta_line v2))
    by (intros l; apply update_meta_line_twice, Hv).
  unfold st1, with_files. cbn [files cwd spawned].
  unfold resolve. cbn [cwd]. rewrite insert_insert_eq. reflexivity.
Qed.

Lemma update_meta_last_wins_witness :
  (update_meta "conda/meta.yaml" (Some "1.0.2") ;;
   update_meta "conda/meta.yaml" (Some "1.1")) conda_dev_start
  = update_meta "conda/meta.yaml" (Some "1.1") conda_dev_start.
Proof.
  apply (update_meta_last_wins "conda/meta.yaml" (Some "1.0.2") (Some "1.1")
           conda_dev_start meta_text); [reflexivity | split; reflexivity].
Defined.



(** ** The documentation configuration *)

Lemma conf_line_by_key v y l l' :
  key_of l = key_of l' ->
  has_key "version" l' = true \/ has_key "release" l' = true
  \/ has_key "copyright" l' = true ->
  conf_line v y l = conf_line v y l'.
Proof.
  intros E Hk. unfold has_key in Hk.
  rewrite !bool_decide_eq_true in Hk.
  destruct (conf_line_cases v y l)
    as [[K ->]|[[K ->]|[[K ->]|(K1 & K2 & K3 & _)]]];
    destruct (conf_line_cases v y l')
      as [[K' ->]|[[K' ->]|[[K' ->]|(K1' & K2' & K3' & _)]]];
    unfold has_key in *;
    rewrite ?bool_decide_eq_false in *;
    try reflexivity; try congruence;
    destruct Hk as [Hk|[Hk|Hk]]; congruence.
Qed.

Lemma conf_line_twice v1 y1 v2 y2 line :
  conf_line v2 y2 (conf_line v1 y1 line) = conf_line v2 y2 line.
Proof.
  destruct (conf_line_cases v1 y1 line)
    as [[E ->]|[[E ->]|[[E ->]|(_ & _ & _ & ->)]]]; [| | |reflexivity];
    apply conf_line_by_key.
  - rewrite E. apply key_of_version_line.
  - left. unfold has_key. apply bool_decide_eq_true_2, E.
  - rewrite E. apply key_of_release_line.
  - right; left. unfold has_key. apply bool_decide_eq_true_2, E.
  - rewrite E. apply key_of_copyright_line.
  - right; right. unfold has_key. apply bool_decide_eq_true_2, E.
Qed.

(** Property X3.  Two rewrites of the configuration in a row leave what
    the second alone leaves, whatever the versions and the years. *)
Theorem update_conf_last_wins (conf : string) (v1 v2 : option string)
    (y1 y2 : Z) (st : proc) (c : string) :
  files st !! resolve st conf = Some (File c) ->
  (update_conf conf v1 y1 ;; update_conf conf v2 y2) st
  = update_conf conf v2 y2 st.
Proof.
  intros Hf.
  set (L0 := lines (universal_newlines c)).
  destruct (rewrite_conf_shape v1 y1 L0 (lines_well_lined _) (lines_no_cr _))
    as [Hw Hcr].
  rewrite (bind_ok _ _ _ _ _ (update_conf_run conf v1 y1 st c Hf)). fold L0.
  set (st1 := with_files _ st).
  assert (Hf1 : files st1 !! resolve st1 conf
                = Some (File (join (rewrite_conf v1 y1 L0))))
    by apply lookup_insert_eq.
  rewrite (update_conf_run conf v2 y2 st1 _ Hf1),
    (update_conf_run conf v2 y2 st c Hf).
  rewrite (reread _ Hw Hcr). fold L0.
  unfold rewrite_conf. rewrite map_map.
  rewrite (map_ext _ (conf_line v2 y2)) by (intros l; apply conf_line_twice).
  unfold st1, with_files. cbn [files cwd spawned].
  unfold resolve. cbn [cwd]. rewrite insert_insert_eq. reflexivity.
Qed.

Lemma update_conf_last_wins_witness :
  (update_conf "docs/source/conf.py" (Some "1.0.2") 2019 ;;
   update_conf "docs/source/conf.py" (Some "1.1") 2020) dev_start
  = update_conf "docs/source/conf.py" (Some "1.1") 2020 dev_start.
Proof.
  apply (update_conf_last_wins "docs/source/conf.py" (Some "1.0.2") (Some "1.1")
           2019 2020 dev_start conf_text). reflexivity.
Defined.



(** ** What [revision] touches *)

Lemma keeps_refl P st : keeps P st st.
Proof. repeat split. Qed.

Lemma keeps_trans P st1 st2 st3 :
  keeps P st1 st2 -> keeps P st2 st3 -> keeps P st1 st3.
Proof.
  intros (H1 & H2 & H3) (K1 & K2 & K3). repeat split; try congruence.
  intros q Hq. rewrite K3, H3; auto.
Qed.

Lemma keeps_weaken (P Q : string -> Prop) st st' :
  (forall q, Q q -> P q) -> keeps P st st' -> keeps Q st st'.
Proof. intros H (H1 & H2 & H3). repeat split; auto. Qed.

Lemma write_text_keeps p text st r st' :
  write_text p text st = (r, st') -> keeps (fun q => q <> resolve st p) st st'.
Proof.
  destruct r as [u|e]; intros H.
  - apply write_text_ok in H as ->. repeat split.
    intros q Hq. apply lookup_insert_ne. congruence.
  - apply write_text_raise in H as ->. apply keeps_refl.
Qed.

Section Touched.

Variable execute : string -> string.
Variable st : proc.

Lemma propagate_keeps version sha1 r st' :
  propagate execute version sha1 st = (r, st') -> keeps (beside_outputs st) st st'.
Proof.
  unfold propagate. rewrite bind_get.
  unfold bind at 1. rewrite lift_run.
  destruct (commit_date execute sha1) as [d|e];
    [|intros [= _ <-]; apply keeps_refl].
  rewrite (bind_ok _ _ _ _ _ (path_exists_run _ _)).
  set (present := bool_decide _). clearbody present.
  unfold bind at 1.
  match goal with
  | |- context [match ?m st with pair _ _ => _ end] =>
      destruct (m st) as [[u|e] st2] eqn:H2
  end.
  2:{ intros [= _ <-]. destruct present.
      - apply update_meta_frame in H2 as (Hc & Hs & Hf).
        repeat split; try assumption. intros q (Hq & _). apply Hf, Hq.
      - injection H2 as _ <-. apply keeps_refl. }
  assert (K2 : keeps (beside_outputs st) st st2).
  { destruct present.
    - apply update_meta_frame in H2 as (Hc & Hs & Hf).
      repeat split; try assumption. intros q (Hq & _). apply Hf, Hq.
    - injection H2 as _ <-. apply keeps_refl. }
  assert (Hc2 : cwd st2 = cwd st) by apply K2.
  unfold bind at 1.
  destruct (update_conf _ _ _ st2) as [[u3|e] st3] eqn:H3;
    apply update_conf_frame in H3 as (Hc3 & Hs3 & Hf3).
  2:{ intros [= _ <-]. apply (keeps_trans _ _ st2); [exact K2|].
      repeat split; try assumption. intros q (_ & Hq & _). apply Hf3.
      unfold resolve. rewrite Hc2. exact Hq. }
  assert (K3 : keeps (beside_outputs st) st st3).
  { apply (keeps_trans _ _ st2); [exact K2|].
    repeat split; try assumption. intros q (_ & Hq & _). apply Hf3.
    unfold resolve. rewrite Hc2. exact Hq. }
  assert (Hc3' : cwd st3 = cwd st) by apply K3.
  unfold bind at 1.
  destruct (write_text _ _ st3) as [[u4|e] st4] eqn:H4;
    apply write_text_keeps in H4; intros [= _ <-];
    (apply (keeps_trans _ _ st3); [exact K3|]);
    (eapply keeps_weaken; [|exact H4]);
    intros q (_ & _ & Hq); unfold resolve; rewrite Hc3'; exact Hq.
Qed.

(** Property X5.  Whatever it returns or raises, [revision] leaves the
    working directory and the commands run as they were, and every file
    but [conda/meta.yaml], [docs/source/conf.py] and
    [src/pytide/version.py]. *)
Theorem revision_touches_three_files :
  keeps (beside_outputs st) st (revision execute st).2.
Proof.
  destruct (revision execute st) as [r st'] eqn:H. cbn [snd].
  unfold revision in H. rewrite bind_get in H.
  destruct (is_empty _).
  - unfold bind in H.
    destruct (read_lines _ st) as [[ls|e] st1] eqn:H1;
      apply read_lines_state in H1 as ->.
    + destruct (recover ls); injection H as _ <-; apply keeps_refl.
    + injection H as _ <-. apply keeps_refl.
  - unfold bind at 1 in H. rewrite lift_run in H.
    destruct (version_and_hash _) as [[version sha1]|e].
    + eapply propagate_keeps, H.
    + injection H as _ <-. apply keeps_refl.
Qed.

(** Property X6.  Without a describe output, [revision] only reads: the
    process is left exactly as it was, whether a version is found or not. *)
Theorem revision_without_git_only_reads :
  is_empty (strip (execute describe_cmd)) = true ->
  (revision execute st).2 = st.
Proof.
  intros Hnone. unfold revision. rewrite bind_get, Hnone. unfold bind.
  destruct (read_lines _ st) as [[ls|e] st1] eqn:H1;
    apply read_lines_state in H1 as ->; [|reflexivity].
  destruct (recover ls); reflexivity.
Qed.

End Touched.

Lemma revision_without_git_only_reads_witness :
  (revision no_git stale_start).2 = stale_start.
Proof. apply (revision_without_git_only_reads no_git stale_start). reflexivity. Defined.

(** ** A complete run in a working copy *)

Lemma resolve_with_files f st p : resolve (with_files f st) p = resolve st p.
Proof. reflexivity. Qed.

Lemma write_text_new p text st :
  files st !! resolve st p = None ->
  files st !! dirname (resolve st p) = Some Dir ->
  write_text p text st
  = (Ok tt, with_files (<[resolve st p := File text]> (files st)) st).
Proof.
  intros H1 H2. unfold write_text. rewrite bind_get, H1, H2. reflexivity.
Qed.

Lemma module_path a :
  path_join a ["src"; "pytide"; "version.py"]
  = base a +:+ "src/pytide/version.py".
Proof.
  unfold path_join. cbn [fold_left].
  rewrite (path_join2_word a) by reflexivity.
  rewrite (path_join2_next (base a) "s" "rc" "p" "ytide") by reflexivity.
  cbn [String.append].
  rewrite (path_join2_next (base a) "s" "rc/pytide" "v" "ersion.py")
    by reflexivity.
  reflexivity.
Qed.

Lemma update_meta_absent_or_file version st :
  let meta := path_join (cwd st) ["conda"; "meta.yaml"] in
  files st !! resolve st meta <> Some Dir ->
  (if bool_decide (is_Some (files st !! resolve st meta))
   then update_meta meta version else ret tt) st
  = (Ok tt,
     with_files
       match files st !! resolve st meta with
       | Some (File cm) =>
           <[resolve st meta :=
               File (join (map (update_meta_line version)
                             (lines (universal_newlines cm))))]> (files st)
       | _ => files st
       end st).
Proof.
  intros meta Hdir.
  destruct (files st !! resolve st meta) as [[cm|]|] eqn:E.
  - rewrite bool_decide_eq_true_2 by eauto. apply update_meta_run, E.
  - congruence.
  - rewrite bool_decide_eq_false_2 by apply is_Some_None.
    destruct st. reflexivity.
Qed.

(** Property X7.  In a working copy where git gives the version, the hash
    and the commit date, where the configuration exists and the generated
    module can be written (it exists, or its directory does), [revision]
    returns the version and leaves exactly three changes: the metadata
    rewritten if it is there, the configuration rewritten for the version
    and the year of the commit, and the module generated for the version
    and the date. *)
Theorem revision_writes_the_version (execute : string -> string) (st : proc)
    (version sha1 : option string) (date : datetime) (c : string) :
  let qmeta := resolve st (path_join (cwd st) ["conda"; "meta.yaml"]) in
  let qconf := resolve st (path_join (cwd st) ["docs"; "source"; "conf.py"]) in
  let qmodule := resolve st (path_join (cwd st) ["src"; "pytide"; "version.py"]) in
  is_empty (strip (execute describe_cmd)) = false ->
  version_and_hash (strip (execute describe_cmd)) = Ok (version, sha1) ->
  commit_date execute sha1 = Ok date ->
  files st !! qmeta <> Some Dir ->
  files st !! qconf = Some (File c) ->
  (exists old, files st !! qmodule = Some (File old))
  \/ (files st !! qmodule = None /\ files st !! dirname qmodule = Some Dir) ->
  revision execute st
  = (Ok version,
     with_files
       (<[qmodule := File (version_module (fmt_s version) (strftime_dBY date))]>
          (<[qconf := File (join (rewrite_conf version (year date)
                                    (lines (universal_newlines c))))]>
             match files st !! qmeta with
             | Some (File cm) =>
                 <[qmeta := File (join (map (update_meta_line version)
                                          (lines (universal_newlines cm))))]>
                   (files st)
             | _ => files st
             end)) st).
Proof.
  intros qmeta qconf qmodule Hdev Hvh Hdate Hmeta Hconf Hmodule.
  assert (Hcm : qconf <> qmeta).
  { unfold qconf, qmeta. rewrite conf_path, meta_path. intros E.
    apply resolve_inj in E; [discriminate|reflexivity|reflexivity]. }
  assert (Hmc : qmodule <> qconf).
  { unfold qconf, qmodule. rewrite conf_path, module_path. intros E.
    apply resolve_inj in E; [discriminate|reflexivity|reflexivity]. }
  assert (Hmm : qmodule <> qmeta).
  { unfold qmeta, qmodule. rewrite meta_path, module_path. intros E.
    apply resolve_inj in E; [discriminate|reflexivity|reflexivity]. }
  rewrite revision_in_working_copy by exact Hdev.
  rewrite Hvh. unfold bind at 1. rewrite lift_run. cbn [fst snd].
  unfold propagate. rewrite bind_get, Hdate.
  unfold bind at 1. rewrite lift_run.
  rewrite (bind_ok _ _ _ _ _ (path_exists_run _ _)).
  pose proof (update_meta_absent_or_file version st Hmeta) as H1.
  cbv zeta in H1. fold qmeta in H1.
  set (f1 := match files st !! qmeta with
             | Some (File cm) => _ | _ => files st end) in *.
  rewrite (bind_ok _ _ _ _ _ H1).
  assert (Hf1 : forall q, q <> qmeta -> f1 !! q = files st !! q).
  { intros q Hq. unfold f1. destruct (files st !! qmeta) as [[cm|]|];
      [apply lookup_insert_ne; congruence | reflexivity | reflexivity]. }
  set (st1 := with_files f1 st).
  assert (Hconf1 :
    files st1 !! resolve st1 (path_join (cwd st) ["docs"; "source"; "conf.py"])
    = Some (File c)).
  { change (f1 !! qconf = Some (File c)). rewrite Hf1 by exact Hcm. exact Hconf. }
  rewrite (bind_ok _ _ _ _ _ (update_conf_run _ version (year date) st1 c Hconf1)).
  change (resolve st1 (path_join (cwd st) ["docs"; "source"; "conf.py"]))
    with qconf.
  change (files st1) with f1.
  set (f2 := <[qconf := _]> f1).
  set (st2 := with_files f2 st1).
  assert (Hf2 : forall q, q <> qconf -> q <> qmeta -> f2 !! q = files st !! q).
  { intros q Hq1 Hq2. unfold f2. rewrite lookup_insert_ne by congruence.
    apply Hf1, Hq2. }
  assert (Hw : write_text (path_join (cwd st) ["src"; "pytide"; "version.py"])
                 (version_module (fmt_s version) (strftime_dBY date)) st2
               = (Ok tt, with_files (<[qmodule := File (version_module
                     (fmt_s version) (strftime_dBY date))]> f2) st2)).
  { destruct Hmodule as [[old Hold]|[Hnone Hdir]].
    - apply (write_text_file _ _ st2 old).
      change (f2 !! qmodule = Some (File old)).
      rewrite Hf2 by assumption. exact Hold.
    - apply (write_text_new _ _ st2).
      + change (f2 !! qmodule = None). rewrite Hf2 by assumption. exact Hnone.
      + change (f2 !! dirname qmodule = Some Dir).
        rewrite Hf2; [exact Hdir| |].
        * intros E. rewrite E, Hconf in Hdir. discriminate.
        * intros E. rewrite E in Hdir. contradiction. }
  rewrite (bind_ok _ _ _ _ _ Hw). reflexivity.
Qed.

Lemma revision_writes_the_version_witness :
  (revision git_tagged conda_dev_start).1 = Ok (Some "v1.0.2")
  /\ files (revision git_tagged conda_dev_start).2 !! "/w/src/pytide/version.py"
     = Some (File (version_module "v1.0.2" "01 January 2019"))
  /\ files (revision git_tagged conda_dev_start).2 !! "/w/conda/meta.yaml"
     = Some (File (join [ "{% set name = " +:+ str1 dquote +:+ "pytide"
                            +:+ str1 dquote +:+ " %}" +:+ str1 nl;
                          meta_line (Some "v1.0.2");
                          "package:" +:+ str1 nl ])).
Proof.
  rewrite (revision_writes_the_version git_tagged conda_dev_start
             (Some "v1.0.2") (Some "abc1234")
             {| year := 2019; month := 1; day := 1 |} conf_text);
    [ repeat split
    | reflexivity | reflexivity | reflexivity | discriminate | reflexivity
    | right; split; reflexivity ].
Defined.

(** ** The commit date *)

(** Property X8.  When [git log] prints fewer than two words (nothing at
    all for a hash it does not know), [revision] raises [IndexError]; when
    the second word is not an integer, [ValueError]; in both cases before
    anything is written. *)
Theorem revision_needs_the_commit_date (execute : string -> string)
    (st : proc) (version sha1 : option string) :
  is_empty (strip (execute describe_cmd)) = false ->
  version_and_hash (strip (execute describe_cmd)) = Ok (version, sha1) ->
  let words := split (strip (execute (log_cmd (fmt_s sha1)))) in
  (words !! 1%nat = None ->
     revision execute st
     = (Raise (IndexError "list index out of range"), st))
  /\ (forall stamp, words !! 1%nat = Some stamp -> int stamp = None ->
        exists detail,
          revision execute st
          = (Raise (ValueError ("invalid literal for int() with base 10: "
                                +:+ detail)), st)).
Proof.
  intros Hdev Hvh words.
  assert (H : forall e, commit_date execute sha1 = Raise e ->
            revision execute st = (Raise e, st)).
  { intros e He. rewrite revision_in_working_copy by exact Hdev.
    rewrite Hvh. unfold bind at 1. rewrite lift_run. cbn [fst snd].
    unfold propagate. rewrite bind_get, He. reflexivity. }
  split.
  - intros Hw. apply H. unfold commit_date. fold words. rewrite Hw. reflexivity.
  - intros stamp Hw Hi. eexists. apply H. unfold commit_date. fold words.
    rewrite Hw, Hi. reflexivity.
Qed.

Lemma revision_needs_the_commit_date_witness :
  revision git_without_log dev_start
  = (Raise (IndexError "list index out of range"), dev_start).
Proof.
  apply (revision_needs_the_commit_date git_without_log dev_start
           (Some "v1.0.2") (Some "abc1234")); reflexivity.
Defined.

(** ** The names [revision] resolves *)

Lemma describe_hash_group s m :
  search describe_pattern s = Some m ->
  exists h, group 3 m = Some h /\ str_all hash_char h = true /\ h <> "".
Proof.
  intros (s0 & Hm)%search_inv. unfold match_here, describe_pattern in Hm.
  rewrite rmatch_seq in Hm.
  apply rmatch_inv in Hm as (s1 & g1 & Hm & _ & _).
  rewrite rmatch_seq in Hm. apply rmatch_inv in Hm as (s2 & g2 & Hm & _ & _).
  rewrite rmatch_seq in Hm. apply rmatch_inv in Hm as (s3 & g3 & Hm & _ & _).
  rewrite rmatch_seq in Hm. apply rmatch_inv in Hm as (s4 & g4 & Hm & _ & _).
  rewrite rmatch_seq, rmatch_group in Hm.
  apply plus_inv_split in Hm as (w & r & -> & Hw & Hne & Hm).
  rewrite consumed_app in Hm.
  apply rmatch_inv in Hm as (s5 & g5 & [= <-] & Hk & _).
  exists w. unfold group. rewrite Hk.
  - rewrite lookup_insert_eq. auto.
  - cbn. intros [H|[]]. discriminate H.
Qed.

(** Property X9.  The version and the hash chosen from a describe output
    are never [None]: the version is a run of word characters and dots,
    not empty, and the hash a run of word characters, not empty; the [git
    log] command the hash goes into is therefore made of the fixed text
    and word characters only. *)
Theorem resolved_names_are_words (stdout : string)
    (version sha1 : option string) :
  version_and_hash stdout = Ok (version, sha1) ->
  exists t h,
    version = Some t /\ sha1 = Some h
    /\ is_empty t = false /\ str_all tag_char t = true
    /\ is_empty h = false /\ str_all isword h = true
    /\ log_cmd (fmt_s sha1)
       = "git log  " +:+ h +:+ " -1 --format=" +:+ str1 dquote +:+ "%H %at"
         +:+ str1 dquote.
Proof.
  assert (Hne : forall s, s <> "" -> is_empty s = false)
    by (intros [|? ?]; [congruence|reflexivity]).
  assert (Hword : forall s, str_all hash_char s = true -> str_all isword s = true).
  { intros s. apply str_all_impl. intros c. unfold hash_char.
    destruct (isword c) eqn:E; [reflexivity|]. cbn.
    intros D%digit_is_word. congruence. }
  unfold version_and_hash.
  destruct (search describe_pattern stdout) as [m|] eqn:E.
  - intros [= <- <-].
    destruct (describe_hash_group _ _ E) as (h & -> & Hh & Hhn).
    apply leading_group_captures in E as (t & -> & Ht & Htn).
    + exists t, h. repeat split; auto.
    + cbn. intros [H|[H|[H|[]]]]; discriminate H.
  - destruct (search hash_pattern stdout) as [m|] eqn:E2; [|discriminate].
    intros [= <- <-].
    apply leading_group_captures in E2 as (h & -> & Hh & Hhn).
    + exists "0.1", h. repeat split; auto.
    + cbn. intros [H|[]]. discriminate H.
Qed.

Lemma resolved_names_are_words_witness :
  exists t h,
    Some "rc1" = Some t /\ Some "abc123" = Some h
    /\ is_empty t = false /\ str_all tag_char t = true
    /\ is_empty h = false /\ str_all isword h = true
    /\ log_cmd (fmt_s (Some "abc123"))
       = "git log  " +:+ h +:+ " -1 --format=" +:+ str1 dquote +:+ "%H %at"
         +:+ str1 dquote.
Proof.
  apply (resolved_names_are_words "v1.0-rc1-3-gabc123-dirty"). reflexivity.
Defined.

(** ** Locating Eigen3 *)

Section Eigen.

Variable h : host.
Variable self : BuildExt.
Variable st : proc.

(** Property X10.  [eigen] only ever answers with a directory that exists,
    one of the three it looks at, and it answers with
    [<prefix>/include/eigen3] whenever that one exists; it never changes
    the process. *)
Theorem eigen_answers_an_existing_directory :
  let first_dir := path_join (prefix h) ["include"; "eigen3"] in
  let second_dir := path_join (prefix h) ["Library"; "include"; "eigen3"] in
  let present (p : string) := is_Some (files st !! resolve st p) in
  (forall d st', eigen h st = (Ok d, st') ->
     st' = st
     /\ exists p, d = "-DEIGEN3_INCLUDE_DIR=" +:+ p /\ present p
          /\ (p = first_dir \/ p = second_dir \/ p = dirname second_dir))
  /\ (present first_dir ->
        eigen h st = (Ok ("-DEIGEN3_INCLUDE_DIR=" +:+ first_dir), st)).
Proof.
  intros first_dir second_dir present.
  unfold eigen. fold first_dir second_dir.
  rewrite (bind_ok _ _ _ _ _ (path_exists_run _ _)).
  split.
  - intros d st'. case_bool_decide as H1.
    + intros [= <- <-]. split; [reflexivity|]. exists first_dir. auto.
    + rewrite (bind_ok _ _ _ _ _ (path_exists_run _ _)).
      case_bool_decide as H2; cbn [negb];
        rewrite (bind_ok _ _ _ _ _ (path_exists_run _ _));
        case_bool_decide as H3; cbn [negb]; intros [= <- <-];
        (split; [reflexivity|]).
      * exists second_dir. auto.
      * exists (dirname second_dir). auto.
  - intros H1. rewrite bool_decide_eq_true_2 by exact H1. reflexivity.
Qed.

(** Property X11.  Outside a conda environment (no [conda-meta] under the
    prefix, no [conda] module) and without an include directory given, the
    options are the compiler definition alone: Eigen3 is not looked for,
    and nothing can fail. *)
Theorem plain_environment_options :
  EIGEN3_INCLUDE_DIR self = None ->
  files st !! resolve st (path_join (prefix h) ["conda-meta"]) = None ->
  conda_importable h = false ->
  set_cmake_user_options h self st = (Ok (cxx_definition self), st).
Proof.
  intros Hdir Hmeta Himp.
  assert (Hc : is_conda h st = (Ok false, st)).
  { unfold is_conda. rewrite (bind_ok _ _ _ _ _ (path_exists_run _ _)).
    rewrite Hmeta, bool_decide_eq_false_2 by apply is_Some_None.
    cbn [negb]. rewrite Himp. reflexivity. }
  unfold set_cmake_user_options. rewrite (bind_ok _ _ _ _ _ Hc), Hdir.
  reflexivity.
Qed.

End Eigen.

Lemma plain_environment_options_witness :
  set_cmake_user_options plain_host
    (Build_run {| cxx_compiler := Some "clang++"; eigen_root := None |} core_ext)
    dev_start
  = (Ok ["-DCMAKE_CXX_COMPILER=clang++"], dev_start).
Proof.
  apply (plain_environment_options plain_host); reflexivity.
Defined.

(** Property X12.  The compiler given to [build] is the first of the
    options, as it was given, whenever the options are produced. *)
Theorem compiler_override_comes_first (h : host) (b : Build)
    (ext0 : BuildExt) (cxx : string) (st st' : proc) (l : list string) :
  cxx_compiler b = Some cxx ->
  set_cmake_user_options h (Build_run b ext0) st = (Ok l, st') ->
  hd_error l = Some ("-DCMAKE_CXX_COMPILER=" +:+ cxx).
Proof.
  intros Hcxx. unfold set_cmake_user_options.
  destruct (is_conda_run h st) as [c Hc]. rewrite (bind_ok _ _ _ _ _ Hc).
  unfold cxx_definition, Build_run. cbn [CXX_COMPILER EIGEN3_INCLUDE_DIR].
  rewrite Hcxx.
  destruct (match eigen_root b with Some d => Some d | None => _ end).
  - intros [= <- _]. reflexivity.
  - destruct c.
    + unfold bind. destruct (eigen h st) as [[e|e] st1]; [|discriminate].
      intros [= <- _]. reflexivity.
    + intros [= <- _]. reflexivity.
Qed.

Lemma compiler_override_comes_first_witness :
  let self :=
    Build_run {| cxx_compiler := Some "clang++"; eigen_root := None |} core_ext in
  exists l,
    set_cmake_user_options conda_host self eigen_start = (Ok l, eigen_start)
    /\ hd_error l = Some "-DCMAKE_CXX_COMPILER=clang++".
Proof.
  intros self.
  exists ["-DCMAKE_CXX_COMPILER=clang++";
          "-DEIGEN3_INCLUDE_DIR=/opt/conda/include/eigen3"].
  assert (E : set_cmake_user_options conda_host self eigen_start
              = (Ok ["-DCMAKE_CXX_COMPILER=clang++";
                     "-DEIGEN3_INCLUDE_DIR=/opt/conda/include/eigen3"],
                 eigen_start)) by (vm_compute; reflexivity).
  split; [exact E|].
  exact (compiler_override_comes_first conda_host
           {| cxx_compiler := Some "clang++"; eigen_root := None |}
           core_ext "clang++" eigen_start eigen_start _ eq_refl E).
Defined.

(** ** The commands of a build *)

Section Commands.

Variable h : host.
Variable tool : list string -> proc -> bool * gmap string node.
Variable self : BuildExt.

Lemma spawn_spawned cmd st r st' :
  spawn tool self cmd st = (r, st') ->
  spawned st' = spawned st ++ (if dry_run self then [] else [cmd]).
Proof.
  unfold spawn. destruct (dry_run self).
  - intros [= _ <-]. symmetry. apply app_nil_r.
  - destruct (tool cmd st) as [[|] f]; intros [= _ <-]; reflexivity.
Qed.

Lemma spawn_dry cmd st :
  dry_run self = true -> spawn tool self cmd st = (Ok tt, st).
Proof. unfold spawn. intros ->. reflexivity. Qed.

(** What [build_cmake] does before it runs a command: either it fails
    there, with no command run and the working directory kept, or it
    reaches the build directory with the arguments of both commands. *)
Lemma build_cmake_inv ext st r st' :
  build_cmake h tool self ext st = (r, st') ->
  (spawned st' = spawned st /\ cwd st' = cwd st
   /\ exists e, r = Raise e /\ forall cmd, e <> DistutilsExecError cmd)
  \/ exists st1 user args st2,
       mkdir_parents (temp_dir self) st = (Ok tt, st1)
       /\ set_cmake_user_options h self st1 = (Ok user, st1)
       /\ assemble h self (ext_dir self st ext)
            user = Ok args
       /\ chdir (temp_dir self) st1 = (Ok tt, st2)
       /\ (spawn tool self (configure_cmd (cwd st) args.1) ;;
           (if negb (dry_run self) then spawn tool self (build_cmd args.2)
            else ret tt) ;;
           chdir (cwd st)) st2 = (r, st').
Proof.
  unfold build_cmake. rewrite bind_get.
  step H1.
  2:{ intros [= <- <-]. left.
      pose proof (mkdir_parents_frame _ _ _ _ H1) as [Hc Hs].
      apply mkdir_parents_raise in H1 as [q [->| ->]];
        repeat split; auto; eexists; split; [reflexivity| |reflexivity|];
        discriminate. }
  pose proof (mkdir_parents_frame _ _ _ _ H1) as [Hc1 Hs1].
  step H2.
  2:{ intros [= <- <-]. left.
      pose proof (set_cmake_user_options_state _ _ _ _ _ H2) as ->.
      apply set_cmake_user_options_raise in H2 as ->.
      repeat split; auto. eexists; split; [reflexivity|discriminate]. }
  pose proof (set_cmake_user_options_state _ _ _ _ _ H2) as ->.
  unfold bind at 1. rewrite lift_run.
  destruct (assemble _ _ _ _) as [args|e] eqn:H3.
  2:{ intros [= <- <-]. left. apply assemble_raise in H3 as [m ->].
      repeat split; auto. eexists; split; [reflexivity|discriminate]. }
  step H4.
  2:{ intros [= <- <-]. left. apply chdir_raise in H4 as [-> [-> | ->]];
        repeat split; auto; eexists; split; [reflexivity| |reflexivity|];
        discriminate. }
  intros H5. right.
  repeat match goal with u : unit |- _ => destruct u end.
  do 4 eexists. repeat split; eauto.
Qed.

(** Property X13.  A build that is not a dry run spawns nothing, the
    configure command alone, or the configure command followed by the
    build command; the build command is spawned only when the configure
    command has succeeded, a failed command is the last one spawned, and a
    return means both were run. *)
Theorem build_follows_configure (ext : string) (st st' : proc)
    (r : result unit) :
  dry_run self = false ->
  build_cmake h tool self ext st = (r, st') ->
  (spawned st' = spawned st
   /\ exists e, r = Raise e /\ forall cmd, e <> DistutilsExecError cmd)
  \/ (exists cargs,
        spawned st' = spawned st ++ [configure_cmd (cwd st) cargs]
        /\ r = Raise (DistutilsExecError (configure_cmd (cwd st) cargs)))
  \/ (exists cargs bargs,
        spawned st' = spawned st ++ [configure_cmd (cwd st) cargs;
                                     build_cmd bargs]
        /\ (r = Ok tt
            \/ r = Raise (DistutilsExecError (build_cmd bargs))
            \/ r = Raise (NotADirectoryError (cwd st))
            \/ r = Raise (FileNotFoundError (cwd st)))).
Proof.
  intros Hdry H. apply build_cmake_inv in H
    as [(Hs & _ & He) | (st1 & user & [cargs bargs] & st2 & H1 & _ & _ & H4 & H)].
  { left. auto. }
  right. rewrite Hdry in H. cbn [negb fst snd] in H.
  apply mkdir_parents_frame in H1 as [_ Hs1].
  apply chdir_ok in H4 as (_ & _ & Hs2). rewrite Hs1 in Hs2.
  revert H. step H5.
  2:{ intros [= <- <-]. left. exists cargs.
      apply spawn_spawned in H5 as Hs5. rewrite Hdry, Hs2 in Hs5.
      apply spawn_raise in H5 as ->. auto. }
  apply spawn_spawned in H5 as Hs5. rewrite Hdry, Hs2 in Hs5.
  right. exists cargs, bargs. revert H. step H6.
  2:{ intros [= <- <-].
      apply spawn_spawned in H6 as Hs6. rewrite Hdry, Hs5 in Hs6.
      apply spawn_raise in H6 as ->. rewrite <- app_assoc in Hs6. auto. }
  apply spawn_spawned in H6 as Hs6. rewrite Hdry, Hs5, <- app_assoc in Hs6.
  intros H7. destruct r as [[]|e].
  - apply chdir_ok in H7 as (_ & _ & Hs7). rewrite Hs7. auto.
  - apply chdir_raise in H7 as [-> [-> | ->]]; auto.
Qed.

(** Property X14.  In a dry run no command is spawned, and the outcome
    does not depend on the build tool. *)
Theorem dry_run_spawns_nothing
    (tool' : list string -> proc -> bool * gmap string node)
    (ext : string) (st : proc) :
  dry_run self = true ->
  build_cmake h tool self ext st = build_cmake h tool' self ext st
  /\ spawned (build_cmake h tool self ext st).2 = spawned st.
Proof.
  intros Hdry. split.
  - unfold build_cmake, spawn. rewrite Hdry. reflexivity.
  - destruct (build_cmake h tool self ext st) as [r st'] eqn:H.
    apply build_cmake_inv in H
      as [(Hs & _) | (st1 & user & args & st2 & H1 & _ & _ & H4 & H)];
      [exact Hs|].
    apply mkdir_parents_frame in H1 as [_ Hs1].
    apply chdir_ok in H4 as (_ & _ & Hs2).
    rewrite Hdry in H. cbn [negb] in H.
    rewrite (bind_ok _ _ _ _ _ (spawn_dry _ _ Hdry)) in H.
    unfold bind at 1, ret at 1 in H. cbn [snd].
    destruct r as [[]|e].
    + apply chdir_ok in H as (_ & _ & Hs). congruence.
    + apply chdir_raise in H as [-> _]. congruence.
Qed.

(** Property X15.  Where [os.cpu_count()] is [None] and the system is not
    Windows, the job option cannot be formatted: a build never returns and
    never runs a command, and once the build directory and the options are
    there it raises [TypeError], still in the directory it started in. *)
Theorem build_needs_the_cpu_count (ext : string) (st : proc) :
  system h <> "Windows" ->
  cpu_count h = None ->
  (exists e, (build_cmake h tool self ext st).1 = Raise e)
  /\ spawned (build_cmake h tool self ext st).2 = spawned st
  /\ cwd (build_cmake h tool self ext st).2 = cwd st
  /\ (forall st1 user,
        mkdir_parents (temp_dir self) st = (Ok tt, st1) ->
        set_cmake_user_options h self st1 = (Ok user, st1) ->
        exists m, build_cmake h tool self ext st = (Raise (TypeError m), st1)).
Proof.
  intros Hsys Hcpu.
  assert (Ha : forall extdir user args,
             assemble h self extdir user <> Ok args).
  { intros extdir user args. unfold assemble.
    rewrite bool_decide_eq_false_2 by exact Hsys.
    cbn [negb]. rewrite Hcpu. discriminate. }
  destruct (build_cmake h tool self ext st) as [r st'] eqn:H.
  cbn [fst snd]. split; [|split; [|split]].
  - apply build_cmake_inv in H
      as [(_ & _ & e & -> & _) | (st1 & user & args & st2 & _ & _ & H3 & _)];
      [eauto | destruct (Ha _ _ _ H3)].
  - apply build_cmake_inv in H
      as [(Hs & _) | (st1 & user & args & st2 & _ & _ & H3 & _)];
      [exact Hs | destruct (Ha _ _ _ H3)].
  - apply build_cmake_inv in H
      as [(_ & Hc & _) | (st1 & user & args & st2 & _ & _ & H3 & _)];
      [exact Hc | destruct (Ha _ _ _ H3)].
  - intros st1 user H1 H2. revert H. unfold build_cmake. rewrite bind_get.
    rewrite (bind_ok _ _ _ _ _ H1), (bind_ok _ _ _ _ _ H2).
    unfold bind at 1. rewrite lift_run.
    destruct (assemble _ _ _ _) as [args|e] eqn:H3; [destruct (Ha _ _ _ H3)|].
    apply assemble_raise in H3 as [m ->]. intros [= <- <-]. eauto.
Qed.

(** Property X16.  [run] builds the extensions in turn and stops at the
    first one that fails: the later ones are not built. *)
Theorem run_stops_at_the_first_failure (before after : list string)
    (ext : string) (st st1 st2 : proc) (e : exn) :
  build_all h tool self before st = (Ok tt, st1) ->
  build_cmake h tool self ext st1 = (Raise e, st2) ->
  build_all h tool self (before ++ ext :: after) st = (Raise e, st2).
Proof.
  revert st. induction before as [|x before IH]; intros st; cbn [build_all app].
  - intros [= <-] H. rewrite (bind_raise _ _ _ _ _ H). reflexivity.
  - intros H Hext. apply bind_ok_inv in H as (u & st0 & Hx & H).
    rewrite (bind_ok _ _ _ _ _ Hx). apply IH; assumption.
Qed.

Lemma build_cmake_ok ext st u st' :
  startswith_sep (cwd st) = true ->
  build_cmake h tool self ext st = (Ok u, st') ->
  cwd st' = cwd st
  /\ length (spawned st')
     = (length (spawned st) + if dry_run self then 0 else 2)%nat.
Proof.
  intros Habs H. apply build_cmake_inv in H
    as [(_ & _ & e & [=] & _) | (st1 & user & args & st2 & H1 & _ & _ & H4 & H)].
  apply mkdir_parents_frame in H1 as [_ Hs1].
  apply chdir_ok in H4 as (_ & _ & Hs2). rewrite Hs1 in Hs2.
  apply bind_ok_inv in H as (u5 & st5 & H5 & H).
  apply bind_ok_inv in H as (u6 & st6 & H6 & H).
  apply chdir_ok in H as (Hc & _ & Hs).
  apply spawn_spawned in H5.
  split.
  - rewrite Hc. apply locate_absolute, Habs.
  - rewrite Hs. destruct (dry_run self) eqn:Hdry; cbn [negb] in H6.
    + injection H6 as _ <-. rewrite H5, Hs2, app_nil_r. lia.
    + apply spawn_spawned in H6. rewrite Hdry in H6.
      rewrite H6, H5, Hs2, !length_app. cbn [length]. lia.
Qed.

(** Property X17.  A [run] that returns, started in an absolute directory,
    ends in that directory and has spawned two commands for each extension
    (none in a dry run). *)
Theorem run_returns_where_it_started (st st' : proc) (u : unit) :
  startswith_sep (cwd st) = true ->
  run h tool self st = (Ok u, st') ->
  cwd st' = cwd st
  /\ length (spawned st')
     = (length (spawned st)
        + (if dry_run self then 0 else 2) * length (extensions self))%nat.
Proof.
  unfold run. revert st u st'.
  induction (extensions self) as [|x exts IH]; intros st u st' Habs;
    cbn [build_all length].
  - intros [= _ <-]. split; [reflexivity | lia].
  - intros H. apply bind_ok_inv in H as (u0 & st0 & Hx & H).
    apply build_cmake_ok in Hx as [Hc0 Hs0]; [|exact Habs].
    apply IH in H as [Hc Hs]; [|rewrite Hc0; exact Habs].
    split; [congruence|]. rewrite Hs, Hs0. lia.
Qed.

End Commands.

Lemma build_follows_configure_witness :
  let out :=
    build_cmake conda_host tool_build_fails core_ext "pytide.core" conda_start in
  (spawned out.2 = []
   /\ exists e, out.1 = Raise e /\ forall cmd, e <> DistutilsExecError cmd)
  \/ (exists cargs,
        spawned out.2 = [] ++ [configure_cmd "/w" cargs]
        /\ out.1 = Raise (DistutilsExecError (configure_cmd "/w" cargs)))
  \/ (exists cargs bargs,
        spawned out.2 = [] ++ [configure_cmd "/w" cargs; build_cmd bargs]
        /\ (out.1 = Ok tt
            \/ out.1 = Raise (DistutilsExecError (build_cmd bargs))
            \/ out.1 = Raise (NotADirectoryError "/w")
            \/ out.1 = Raise (FileNotFoundError "/w"))).
Proof.
  intros out.
  apply (build_follows_configure conda_host tool_build_fails core_ext
           "pytide.core" conda_start out.2 out.1);
    [reflexivity | vm_compute; reflexivity].
Defined.

Lemma dry_run_spawns_nothing_witness :
  build_cmake conda_host tool_ok core_dry "pytide.core" conda_start
  = build_cmake conda_host tool_fails core_dry "pytide.core" conda_start
  /\ spawned (build_cmake conda_host tool_ok core_dry "pytide.core"
                conda_start).2 = [].
Proof.
  apply (dry_run_spawns_nothing conda_host tool_ok core_dry tool_fails
           "pytide.core" conda_start).
  reflexivity.
Defined.

Lemma build_needs_the_cpu_count_witness :
  exists m,
    build_cmake uncounted_host tool_ok core_ext "pytide.core" lean_start
    = (Raise (TypeError m), lean_start).
Proof.
  destruct (build_needs_the_cpu_count uncounted_host tool_ok core_ext
              "pytide.core" lean_start) as (_ & _ & _ & H);
    [discriminate | reflexivity |].
  apply (H lean_start []); vm_compute; reflexivity.
Defined.

Lemma run_stops_at_the_first_failure_witness :
  exists e st2,
    build_all conda_host tool_tires two_ext
      ["pytide.core"; "pytide.extra"; "pytide.more"] conda_start
    = (Raise e, st2)
    /\ length (spawned st2) = 3%nat.
Proof.
  pose (st1 := (build_all conda_host tool_tires two_ext ["pytide.core"]
                  conda_start).2).
  eexists. eexists. split.
  - apply (run_stops_at_the_first_failure conda_host tool_tires two_ext
             ["pytide.core"] ["pytide.more"] "pytide.extra" conda_start st1);
      vm_compute; reflexivity.
  - reflexivity.
Defined.

Lemma run_returns_where_it_started_witness :
  let out := run conda_host tool_ok two_ext conda_start in
  cwd out.2 = "/w" /\ length (spawned out.2) = 4%nat.
Proof.
  intros out.
  apply (run_returns_where_it_started conda_host tool_ok two_ext conda_start
           out.2 tt);
    [reflexivity | vm_compute; reflexivity].
Defined.

(** ** The build directory *)

Lemma mkdirs_ok given target ps : forall f u f',
  mkdirs given target ps f = (Ok u, f') ->
  (forall p, In p ps -> f' !! p = Some Dir)
  /\ (forall q n, f !! q = Some n -> f' !! q = Some n).
Proof.
  induction ps as [|a ps IH]; intros f u f'; cbn [mkdirs].
  - intros [= _ <-]. split; [intros p [] | auto].
  - destruct (f !! a) as [[c|]|] eqn:Ha.
    + discriminate.
    + intros H. apply IH in H as [H1 H2]. split; [|exact H2].
      intros p [<- | Hp]; auto.
    + intros H. apply IH in H as [H1 H2]. split.
      * intros p [<- | Hp]; [|auto]. apply H2, lookup_insert_eq.
      * intros q n Hq. apply H2. rewrite lookup_insert_ne; [exact Hq|].
        congruence.
Qed.

Lemma path_prefixes_self s :
  s <> "" -> endswith_sep s = false -> In s (path_prefixes s).
Proof.
  induction s as [|c s IH]; [congruence|]. intros _ Hend.
  cbn [path_prefixes]. destruct s as [|d s].
  - cbn [endswith_sep] in Hend. rewrite Hend. left. reflexivity.
  - assert (Hin : In (String c (String d s))
                    (map (String c) (path_prefixes (String d s)))).
    { apply in_map, IH; [discriminate | exact Hend]. }
    destruct (_ && _); [right|]; exact Hin.
Qed.

Lemma endswith_sep_append a b :
  b <> "" -> endswith_sep (a +:+ b) = endswith_sep b.
Proof. destruct b; [congruence | intros _; apply endswith_sep_app]. Qed.

Lemma path_join2_end a b :
  b <> "" -> endswith_sep b = false ->
  path_join2 a b <> "" /\ endswith_sep (path_join2 a b) = false.
Proof.
  intros Hb Hend. unfold path_join2. destruct (startswith_sep b); [auto|].
  assert (Happ : forall x, x +:+ b <> "").
  { intros [|c x]; [exact Hb | discriminate]. }
  destruct (_ || _).
  - split; [apply Happ|]. rewrite endswith_sep_append; assumption.
  - split.
    + destruct a; discriminate.
    + rewrite endswith_sep_append by discriminate.
      change ("/" +:+ b) with (String "/" b).
      destruct b; [congruence | exact Hend].
Qed.

Lemma mkdir_makes_the_directory (p : string) (st st1 : proc) (u : unit) :
  locate st p <> "" ->
  endswith_sep (locate st p) = false ->
  mkdir_parents p st = (Ok u, st1) ->
  files st1 !! locate st p = Some Dir
  /\ (forall q n, files st !! q = Some n -> files st1 !! q = Some n)
  /\ chdir p st1 = (Ok tt, with_cwd (locate st p) st1).
Proof.
  intros Hp Hend. unfold mkdir_parents.
  destruct (mkdirs _ _ _) as [r f] eqn:Hm. intros [= -> <-].
  apply mkdirs_ok in Hm as [H1 H2].
  assert (Hdir : f !! locate st p = Some Dir).
  { apply H1, path_prefixes_self; assumption. }
  split; [exact Hdir|]. split; [exact H2|].
  unfold chdir. rewrite bind_get. cbv zeta.
  change (locate (with_files f st) p) with (locate st p).
  change (files (with_files f st)) with f. rewrite Hdir. reflexivity.
Qed.

Lemma pure_path_not_empty s : pure_path s <> "".
Proof.
  unfold pure_path, pure_format. cbv zeta.
  destruct (is_empty _) eqn:E; [discriminate | apply not_empty, E].
Qed.

Lemma locate_end st p :
  p <> "" -> p <> "." -> endswith_sep p = false ->
  locate st p <> "" /\ endswith_sep (locate st p) = false.
Proof.
  intros Hp Hdot Hend. unfold locate.
  destruct (decide (p = ".")); [contradiction|].
  apply path_join2_end; assumption.
Qed.

(** Property X18.  Once the build directory is made and the arguments are
    there, entering it cannot fail: the directory exists, every file that
    was there is still there, and the commands run from it, the configure
    command first.  This holds for every build directory that is neither
    [.] nor a root in the form [pathlib] gives it, whatever separators the
    option ends with or repeats. *)
Theorem commands_run_in_the_build_directory (h : host)
    (tool : list string -> proc -> bool * gmap string node)
    (self : BuildExt) (ext : string) (st st1 : proc) (user : list string)
    (args : list string * list string) :
  temp_dir self <> "." ->
  endswith_sep (temp_dir self) = false ->
  mkdir_parents (temp_dir self) st = (Ok tt, st1) ->
  set_cmake_user_options h self st1 = (Ok user, st1) ->
  assemble h self (ext_dir self st ext) user
  = Ok args ->
  files st1 !! locate st (temp_dir self) = Some Dir
  /\ (forall q n, files st !! q = Some n -> files st1 !! q = Some n)
  /\ build_cmake h tool self ext st
     = (spawn tool self (configure_cmd (cwd st) args.1) ;;
        (if negb (dry_run self) then spawn tool self (build_cmd args.2)
         else ret tt) ;;
        chdir (cwd st))
         (with_cwd (locate st (temp_dir self)) st1).
Proof.
  intros Hdot Hend H1 H2 H3.
  destruct (locate_end st (temp_dir self) (pure_path_not_empty _) Hdot Hend)
    as [Hp Hsep].
  destruct (mkdir_makes_the_directory _ _ _ _ Hp Hsep H1) as (Hd & Hk & Hc).
  split; [exact Hd|]. split; [exact Hk|].
  unfold build_cmake. rewrite bind_get.
  rewrite (bind_ok _ _ _ _ _ H1), (bind_ok _ _ _ _ _ H2).
  unfold bind at 1. rewrite lift_run, H3.
  rewrite (bind_ok _ _ _ _ _ Hc). reflexivity.
Qed.

Lemma commands_run_in_the_build_directory_witness :
  let st1 := (mkdir_parents "build/temp" conda_start).2 in
  files st1 !! "/w/build/temp" = Some Dir
  /\ (forall q n, conda_tree !! q = Some n -> files st1 !! q = Some n)
  /\ build_cmake conda_host tool_ok core_ext "pytide.core" conda_start
     = (spawn tool_ok core_ext
          (configure_cmd "/w"
             ["-DCMAKE_LIBRARY_OUTPUT_DIRECTORY=/w/build/lib/pytide";
              "-DPYTHON_EXECUTABLE=/opt/conda/bin/python";
              "-DEIGEN3_INCLUDE_DIR=/opt/conda/Library/include";
              "-DCMAKE_BUILD_TYPE=Release"]) ;;
        spawn tool_ok core_ext
          (build_cmd ["--config"; "Release"; "--"; "-j4"]) ;;
        chdir "/w") (with_cwd "/w/build/temp" st1).
Proof.
  intros st1.
  apply (commands_run_in_the_build_directory conda_host tool_ok core_ext
           "pytide.core" conda_start st1
           ["-DEIGEN3_INCLUDE_DIR=/opt/conda/Library/include"]
           (["-DCMAKE_LIBRARY_OUTPUT_DIRECTORY=/w/build/lib/pytide";
             "-DPYTHON_EXECUTABLE=/opt/conda/bin/python";
             "-DEIGEN3_INCLUDE_DIR=/opt/conda/Library/include";
             "-DCMAKE_BUILD_TYPE=Release"],
            ["--config"; "Release"; "--"; "-j4"]));
    [discriminate | reflexivity | vm_compute; reflexivity
    | vm_compute; reflexivity | vm_compute; reflexivity].
Defined.

(** ** The arguments of the two commands *)

(** Property X19.  The configure arguments are the output directory and
    the interpreter, then the options of the user, then those of the
    platform: the generator on Windows alone, the build type everywhere
    else, the deployment target on Darwin alone. The build arguments start
    with [--verbose] exactly in a verbose build, name the configuration,
    and end with the options of the underlying tool: [/m] on Windows
    alone, with [/verbosity:n] in a verbose build. *)
Theorem arguments_follow_the_platform (h : host) (self : BuildExt)
    (extdir : string) (user : list string)
    (args : list string * list string) :
  assemble h self extdir user = Ok args ->
  (exists platform,
     args.1 = ["-DCMAKE_LIBRARY_OUTPUT_DIRECTORY=" +:+ extdir;
               "-DPYTHON_EXECUTABLE=" +:+ executable h] ++ user ++ platform
     /\ (In "-G" platform <-> system h = "Windows")
     /\ (In ("-DCMAKE_BUILD_TYPE=" +:+ cfg self) platform
         <-> system h <> "Windows")
     /\ (In "-DCMAKE_OSX_DEPLOYMENT_TARGET=10.14" platform
         <-> system h = "Darwin"))
  /\ (exists jobs,
        args.2 = (if verbose self then ["--verbose"] else [])
                 ++ ["--config"; cfg self; "--"] ++ jobs
        /\ (In "/m" jobs <-> system h = "Windows")
        /\ (In "/verbosity:n" jobs
            <-> system h = "Windows" /\ verbose self = true)).
Proof.
  unfold assemble. case_bool_decide as Hwin; cbn [negb].
  - intros [= <-]. cbn [fst snd]. rewrite Hwin. split.
    + exists ["-G"; "Visual Studio 15 2017"; "-DCMAKE_GENERATOR_PLATFORM=x64";
              "-DCMAKE_LIBRARY_OUTPUT_DIRECTORY_" +:+ upper (cfg self) +:+ "="
              +:+ extdir].
      split; [reflexivity|].
      unfold cfg. destruct (debug self); cbn [In];
        repeat split; intros; try discriminate; try tauto;
        repeat match goal with H : _ \/ _ |- _ => destruct H end;
        try discriminate; try contradiction; auto.
    + destruct (verbose self).
      * exists ["/m"; "/verbosity:n"]. split; [reflexivity|].
        cbn [In]. repeat split; auto.
      * exists ["/m"]. split; [reflexivity|]. cbn [In].
        repeat split; auto; intros; try discriminate;
          repeat match goal with
                 | H : _ \/ _ |- _ => destruct H
                 | H : _ /\ _ |- _ => destruct H
                 end; try discriminate; try contradiction.
  - destruct (cpu_count h) as [n|]; [|discriminate].
    intros [= <-]. cbn [fst snd]. split.
    + case_bool_decide as Hmac.
      * exists ["-DCMAKE_BUILD_TYPE=" +:+ cfg self;
                "-DCMAKE_OSX_DEPLOYMENT_TARGET=10.14"].
        split; [cbn [app]; rewrite <- ?app_assoc; reflexivity|].
        unfold cfg. destruct (debug self); cbn [In];
          repeat split; intros; auto;
          repeat match goal with H : _ \/ _ |- _ => destruct H end;
          try discriminate; try contradiction.
      * exists ["-DCMAKE_BUILD_TYPE=" +:+ cfg self].
        split; [cbn [app]; rewrite <- ?app_assoc; reflexivity|].
        unfold cfg. destruct (debug self); cbn [In];
          repeat split; intros; auto;
          repeat match goal with H : _ \/ _ |- _ => destruct H end;
          try discriminate; try contradiction.
    + exists ["-j" +:+ str_of_Z n]. split.
      * destruct (verbose self); reflexivity.
      * cbn [In]. repeat split; intros;
          repeat match goal with
                 | H : _ \/ _ |- _ => destruct H
                 | H : _ /\ _ |- _ => destruct H
                 end; try discriminate; try contradiction.
Qed.

Lemma arguments_follow_the_platform_witness :
  exists jobs,
    ["--verbose"; "--config"; "Debug"; "--"; "/m"; "/verbosity:n"]
    = (if verbose two_ext then ["--verbose"] else [])
      ++ ["--config"; cfg two_ext; "--"] ++ jobs
    /\ (In "/m" jobs <-> system windows_host = "Windows")
    /\ (In "/verbosity:n" jobs
        <-> system windows_host = "Windows" /\ verbose two_ext = true).
Proof.
  pose (r := assemble windows_host two_ext "C:/w/build/lib" []).
  assert (E : r = Ok match r with Ok a => a | Raise _ => ([], []) end)
    by (vm_compute; reflexivity).
  exact (proj2 (arguments_follow_the_platform windows_host two_ext
                  "C:/w/build/lib" [] _ E)).
Defined.
